(** * modelCall.py: a shallow embedding of the chat-completion wrappers

    The module [modelCall.py] loads credentials from a TOML file, builds a
    client, assembles a request dictionary and reshapes the reply of the
    remote endpoint.  The embedding keeps Python's dynamic values for
    everything the caller or the configuration file supplies, models the
    remote endpoint and the file system as a [world], and records the
    observable effects (file read, remote request, console output) in a
    trace. *)

From stdpp Require Import gmap strings list fin_maps.

(** ** Python values *)

(** The values that travel through the wrappers: arguments, TOML documents
    and the request dictionary. *)
#[warnings="-register-all"]
Inductive pyval : Type :=
  | PNone
  | PBool (b : bool)
  | PInt (z : Z)
  | PStr (s : string)
  | PList (l : list pyval)
  | PDict (d : gmap string pyval).

(** Python truth value testing, as used by [if stream:] and [model or ...]. *)
Definition truthy (v : pyval) : bool :=
  match v with
  | PNone => false
  | PBool b => b
  | PInt z => negb (Z.eqb z 0)
  | PStr s => negb (String.eqb s "")
  | PList l => match l with [] => false | _ :: _ => true end
  | PDict d => negb (Nat.eqb (size d) 0)
  end.

(** [v == "lit"] for a string literal on the right. *)
Definition eq_str (v : pyval) (lit : string) : bool :=
  match v with
  | PStr s => String.eqb s lit
  | _ => false
  end.

(** [v is None] *)
Definition is_none (v : pyval) : bool :=
  match v with
  | PNone => true
  | _ => false
  end.

(** Truth value of an [Optional[str]] attribute of a reply object. *)
Definition str_truthy (o : option string) : bool :=
  match o with
  | Some s => negb (String.eqb s "")
  | None => false
  end.

(** The line feed that [print()] writes. *)
Definition newline : string :=
  String (Ascii.Ascii false true false true false false false false) "".

(** ** Objects of the client library *)

(** An attribute that an object may lack altogether ([hasattr] / [getattr]
    with a default): [None] is "no such attribute", [Some v] is the
    attribute with the [Optional[str]] value [v]. *)
Definition attr : Type := option (option string).

Record ChoiceDelta := {
  delta_content : option string;
  delta_reasoning_content : attr
}.

Record ChunkChoice := { delta : option ChoiceDelta }.

Record ChatCompletionChunk := { chunk_choices : list ChunkChoice }.

Record ChatCompletionMessage := {
  message_content : option string;
  message_reasoning_content : attr
}.

Record Choice := { message : ChatCompletionMessage }.

Record ChatCompletion := { choices : list Choice }.

(** What [client.chat.completions.create] hands back: a completion, or a
    stream that is iterated chunk by chunk. *)
Inductive remote_obj : Type :=
  | Completion (r : ChatCompletion)
  | Stream (cs : list ChatCompletionChunk).

Record OpenAI := { client_api_key : pyval; client_base_url : pyval }.

(** ** Exceptions, effects and the monad *)

Inductive exn : Type :=
  | KeyError (key : string)
  | TypeError
  | IndexError
  | AttributeError
  | ValueError (msg : string)
  | FileNotFoundError (path : string)
  | APIError (detail : string).

Inductive event : Type :=
  | EvRead (path : string)
  | EvRequest (client : OpenAI) (api_params : gmap string pyval)
  | EvPrint (text : string)
  | EvPrintChunk (chunk : ChatCompletionChunk).

Inductive outcome (A : Type) : Type :=
  | Return (a : A)
  | Raise (e : exn).

Arguments Return {A} a.
Arguments Raise {A} e.

(** A computation yields the trace of its effects and either a value or the
    exception that stopped it. *)
Definition M (A : Type) : Type := (list event * outcome A)%type.

Definition ret {A} (a : A) : M A := ([], Return a).

Definition raise {A} (e : exn) : M A := ([], Raise e).

Definition emit (ev : event) : M unit := ([ev], Return tt).

Definition trace {A} (m : M A) : list event := fst m.
Definition result {A} (m : M A) : outcome A := snd m.

Definition bind {A B} (m : M A) (k : A → M B) : M B :=
  match result m with
  | Return a => (trace m ++ trace (k a), result (k a))
  | Raise e => (trace m, Raise e)
  end.

Notation "'let*' x ':=' m 'in' k" := (bind m (fun x => k))
  (at level 10, x name, m at level 100, k at level 200, only parsing).
Notation "'let*' '_' ':=' m 'in' k" := (bind m (fun _ => k))
  (at level 10, m at level 100, k at level 200, only parsing).

(** The remote requests of a trace, in order. *)
Fixpoint requests (t : list event) : list (OpenAI * gmap string pyval) :=
  match t with
  | [] => []
  | EvRequest c p :: t' => (c, p) :: requests t'
  | _ :: t' => requests t'
  end.

(** The console output of a trace, in order. *)
Fixpoint console (t : list event) : list event :=
  match t with
  | [] => []
  | EvPrint s :: t' => EvPrint s :: console t'
  | EvPrintChunk c :: t' => EvPrintChunk c :: console t'
  | _ :: t' => console t'
  end.

(** ** The environment *)

(** [files] maps a path to the document [toml.load] parses from it;
    [create] is the remote endpoint behind [client.chat.completions.create],
    which answers a request or fails with a transport error. *)
Record world := {
  files : gmap string (gmap string pyval);
  create : OpenAI → gmap string pyval → string + remote_obj
}.

Definition default_path : string := "./config.toml".
Definition default_openai_system : string := "你是乐于助人的AI,请使用中文回答问题".
Definition default_deepseek_system : string := "你是DeepSeek AI助手，请使用中文回答问题".
Definition return_type_error : string := "return_type 必须是 'json' 或 'text'".
Definition reasoning_marker : string := "[推理] ".

Section Model.

Variable w : world.

(** [d[k]] on a dict *)
Definition getitem (d : gmap string pyval) (k : string) : M pyval :=
  match d !! k with
  | Some v => ret v
  | None => raise (KeyError k)
  end.

(** [v[k]] on an arbitrary value with a string key *)
Definition subscript (v : pyval) (k : string) : M pyval :=
  match v with
  | PDict d => getitem d k
  | _ => raise TypeError
  end.

(** [v.get(k)] *)
Definition dict_get (v : pyval) (k : string) : M pyval :=
  match v with
  | PDict d => ret (default PNone (d !! k))
  | _ => raise AttributeError
  end.

Definition toml_load (path : string) : M (gmap string pyval) :=
  let* _ := emit (EvRead path) in
  match files w !! path with
  | Some doc => ret doc
  | None => raise (FileNotFoundError path)
  end.

Definition load_config (path service : string) : M (gmap string pyval) :=
  let* cfg := toml_load path in
  let* service_cfg := getitem cfg service in
  let* api_key := subscript service_cfg "api_key" in
  let* base_url := dict_get service_cfg "base_url" in
  let* model := dict_get service_cfg "model" in
  ret {[ "api_key" := api_key; "base_url" := base_url; "model" := model ]}.

Definition create_openai_client (api_key base_url : pyval) : OpenAI :=
  {| client_api_key := api_key; client_base_url := base_url |}.

Definition create_deepseek_client (api_key base_url : pyval) : OpenAI :=
  {| client_api_key := api_key; client_base_url := base_url |}.

(** [client.chat.completions.create( **api_params )] *)
Definition completions_create (client : OpenAI) (api_params : gmap string pyval)
  : M remote_obj :=
  let* _ := emit (EvRequest client api_params) in
  match create w client api_params with
  | inr o => ret o
  | inl detail => raise (APIError detail)
  end.

(** Iterating the reply: a stream yields its chunks; a completion is not a
    stream, and the first attribute access on what it yields fails. *)
Definition iterate (response : remote_obj) : M (list ChatCompletionChunk) :=
  match response with
  | Stream cs => ret cs
  | Completion _ => raise AttributeError
  end.

(** [chunk.choices[0]] *)
Definition chunk_choice0 (chunk : ChatCompletionChunk) : M ChunkChoice :=
  match chunk_choices chunk with
  | c :: _ => ret c
  | [] => raise IndexError
  end.

(** [chunk.choices[0].delta.content] *)
Definition chunk_content (chunk : ChatCompletionChunk) : M (option string) :=
  let* c := chunk_choice0 chunk in
  match delta c with
  | Some d => ret (delta_content d)
  | None => raise AttributeError
  end.

(** [response.choices[0].message] *)
Definition response_message (response : remote_obj) : M ChatCompletionMessage :=
  match response with
  | Completion r =>
      match choices r with
      | c :: _ => ret (message c)
      | [] => raise IndexError
      end
  | Stream _ => raise AttributeError
  end.

(** What a call returns. *)
Inductive retval : Type :=
  | RetResponse (response : remote_obj)
  | RetChunks (chunk_list : list ChatCompletionChunk)
  | RetText (text : option string)
  | RetBoth (content : option string) (reasoning_content : option string).

(** *** chat_openai *)

(** The loop of lines 91-94. *)
Fixpoint openai_json_loop (response chunk_list : list ChatCompletionChunk)
  : M (list ChatCompletionChunk) :=
  match response with
  | [] => ret chunk_list
  | chunk :: rest =>
      let* c := chunk_content chunk in
      match c with
      | Some _ =>
          let* _ := emit (EvPrintChunk chunk) in
          openai_json_loop rest (chunk_list ++ [chunk])
      | None => openai_json_loop rest chunk_list
      end
  end.

(** The loop of lines 98-102. *)
Fixpoint openai_text_loop (response : list ChatCompletionChunk)
  (full_content : string) : M string :=
  match response with
  | [] => ret full_content
  | chunk :: rest =>
      let* c := chunk_content chunk in
      match c with
      | Some content =>
          let* _ := emit (EvPrint content) in
          openai_text_loop rest (full_content +:+ content)
      | None => openai_text_loop rest full_content
      end
  end.

Definition system_user (system content : pyval) : pyval :=
  PList [ PDict {[ "role" := PStr "system"; "content" := system ]};
          PDict {[ "role" := PStr "user"; "content" := content ]} ].

(** [{"model": m, "messages": msgs, "stream": stream, **kwargs}]: the keys
    of [kwargs] are written last, so they win. *)
Definition make_api_params (model messages stream : pyval)
  (kwargs : gmap string pyval) : gmap string pyval :=
  kwargs ∪ {[ "model" := model; "messages" := messages; "stream" := stream ]}.

Definition chat_openai (content system return_type stream : pyval)
  (kwargs : gmap string pyval) : M retval :=
  let* cfg := load_config default_path "openai" in
  let* api_key := getitem cfg "api_key" in
  let client := create_openai_client api_key (default PNone (cfg !! "base_url")) in
  let msgs := system_user system content in
  let* model := getitem cfg "model" in
  let api_params := make_api_params model msgs stream kwargs in
  if truthy stream then
    let* response := completions_create client api_params in
    if eq_str return_type "json" then
      let* cs := iterate response in
      let* chunk_list := openai_json_loop cs [] in
      ret (RetChunks chunk_list)
    else if eq_str return_type "text" then
      let* cs := iterate response in
      let* full_content := openai_text_loop cs "" in
      let* _ := emit (EvPrint newline) in
      ret (RetText (Some full_content))
    else raise (ValueError return_type_error)
  else
    let* response := completions_create client api_params in
    if eq_str return_type "json" then ret (RetResponse response)
    else if eq_str return_type "text" then
      let* m := response_message response in
      ret (RetText (message_content m))
    else raise (ValueError return_type_error).

(** *** chat_deepseek *)

(** The loop of lines 172-175. *)
Fixpoint deepseek_json_loop (response chunk_list : list ChatCompletionChunk)
  : M (list ChatCompletionChunk) :=
  match response with
  | [] => ret chunk_list
  | chunk :: rest =>
      let* c := chunk_choice0 chunk in
      match delta c with
      | Some _ =>
          let* _ := emit (EvPrintChunk chunk) in
          deepseek_json_loop rest (chunk_list ++ [chunk])
      | None => deepseek_json_loop rest chunk_list
      end
  end.

(** [hasattr(delta, 'reasoning_content') and delta.reasoning_content]: the
    reasoning fragment when the test succeeds. *)
Definition reasoning_fragment (d : option ChoiceDelta) : option string :=
  match d with
  | Some d' =>
      match delta_reasoning_content d' with
      | Some (Some r) => if String.eqb r "" then None else Some r
      | _ => None
      end
  | None => None
  end.

(** The loop of lines 181-188, on the two accumulators. *)
Fixpoint deepseek_text_loop (response : list ChatCompletionChunk)
  (full_content reasoning_content : string) : M (string * string) :=
  match response with
  | [] => ret (full_content, reasoning_content)
  | chunk :: rest =>
      let* c := chunk_choice0 chunk in
      match reasoning_fragment (delta c) with
      | Some r =>
          let* _ := emit (EvPrint (reasoning_marker +:+ r)) in
          deepseek_text_loop rest full_content (reasoning_content +:+ r)
      | None =>
          match delta c with
          | None => raise AttributeError
          | Some d =>
              if str_truthy (delta_content d) then
                let s := default "" (delta_content d) in
                let* _ := emit (EvPrint s) in
                deepseek_text_loop rest (full_content +:+ s) reasoning_content
              else deepseek_text_loop rest full_content reasoning_content
          end
      end
  end.

(** [getattr(message, 'reasoning_content', '')] *)
Definition getattr_reasoning (m : ChatCompletionMessage) : option string :=
  match message_reasoning_content m with
  | Some v => v
  | None => Some ""
  end.

Definition chat_deepseek (content system return_type stream model messages : pyval)
  (kwargs : gmap string pyval) : M retval :=
  let* cfg := load_config default_path "deepseek" in
  let* api_key := getitem cfg "api_key" in
  let client := create_deepseek_client api_key (default PNone (cfg !! "base_url")) in
  let messages :=
    if is_none messages then system_user system content else messages in
  let* effective_model := (if truthy model then ret model else getitem cfg "model") in
  let api_params := make_api_params effective_model messages stream kwargs in
  if truthy stream then
    let* response := completions_create client api_params in
    if eq_str return_type "json" then
      let* cs := iterate response in
      let* chunk_list := deepseek_json_loop cs [] in
      ret (RetChunks chunk_list)
    else
      let* cs := iterate response in
      let* acc := deepseek_text_loop cs "" "" in
      let* _ := emit (EvPrint newline) in
      if eq_str return_type "both" then
        ret (RetBoth (Some (fst acc)) (Some (snd acc)))
      else ret (RetText (Some (fst acc)))
  else
    let* response := completions_create client api_params in
    if eq_str return_type "json" then ret (RetResponse response)
    else if eq_str return_type "both" then
      let* m := response_message response in
      ret (RetBoth (message_content m) (getattr_reasoning m))
    else
      let* m := response_message response in
      ret (RetText (message_content m)).

(** *** Calling the wrappers

    Both functions are declared with named parameters that have defaults,
    followed by [**kwargs].  A call site supplies positional arguments and
    keyword arguments; Python binds positional arguments to the parameters
    in order, a keyword that names a parameter to that parameter, and
    collects only the remaining keywords in [kwargs].  Too many positional
    arguments, or two values for one name, raise [TypeError]. *)

Record call := { args : list pyval; keywords : list (string * pyval) }.

Fixpoint bind_positional (names : list string) (actuals : list pyval)
  (slots : gmap string pyval) : M (gmap string pyval) :=
  match actuals, names with
  | [], _ => ret slots
  | _ :: _, [] => raise TypeError
  | a :: actuals', n :: names' => bind_positional names' actuals' (<[n := a]> slots)
  end.

Fixpoint bind_keywords (names : list string) (kws : list (string * pyval))
  (slots kwargs : gmap string pyval)
  : M (gmap string pyval * gmap string pyval) :=
  match kws with
  | [] => ret (slots, kwargs)
  | (k, v) :: kws' =>
      if bool_decide (k ∈ names) then
        match slots !! k with
        | Some _ => raise TypeError
        | None => bind_keywords names kws' (<[k := v]> slots) kwargs
        end
      else
        match kwargs !! k with
        | Some _ => raise TypeError
        | None => bind_keywords names kws' slots (<[k := v]> kwargs)
        end
  end.

Definition bind_args (names : list string) (c : call)
  : M (gmap string pyval * gmap string pyval) :=
  let* slots := bind_positional names (args c) ∅ in
  bind_keywords names (keywords c) slots ∅.

(** The value of a parameter: what the call bound, else the default. *)
Definition param (slots : gmap string pyval) (name : string) (dflt : pyval) : pyval :=
  default dflt (slots !! name).

Definition openai_params : list string :=
  ["content"; "system"; "return_type"; "stream"].

Definition deepseek_params : list string :=
  ["content"; "system"; "return_type"; "stream"; "model"; "messages"].

Definition call_chat_openai (c : call) : M retval :=
  let* b := bind_args openai_params c in
  chat_openai
    (param b.1 "content" (PStr ""))
    (param b.1 "system" (PStr default_openai_system))
    (param b.1 "return_type" (PStr "text"))
    (param b.1 "stream" (PBool false))
    b.2.

Definition call_chat_deepseek (c : call) : M retval :=
  let* b := bind_args deepseek_params c in
  chat_deepseek
    (param b.1 "content" (PStr ""))
    (param b.1 "system" (PStr default_deepseek_system))
    (param b.1 "return_type" (PStr "text"))
    (param b.1 "stream" (PBool false))
    (param b.1 "model" PNone)
    (param b.1 "messages" PNone)
    b.2.

End Model.

(** ** Pure readings of a stream

    The fragments a chunk carries, as total functions; the loops are
    related to them below. *)

(** [chunk.choices[0].delta] when both exist. *)
Definition chunk_delta (chunk : ChatCompletionChunk) : option ChoiceDelta :=
  match chunk_choices chunk with
  | c :: _ => delta c
  | [] => None
  end.

(** A chunk on which neither [choices[0]] nor an attribute of [delta] fails. *)
Definition well_formed (chunk : ChatCompletionChunk) : bool :=
  match chunk_delta chunk with
  | Some _ => true
  | None => false
  end.

(** The content fragment of a chunk, when present (not [None]). *)
Definition content_of (chunk : ChatCompletionChunk) : option string :=
  match chunk_delta chunk with
  | Some d => delta_content d
  | None => None
  end.

(** The reasoning fragment of an auxiliary-marked chunk. *)
Definition reasoning_of (chunk : ChatCompletionChunk) : option string :=
  reasoning_fragment (chunk_delta chunk).

(** The content fragment of an ordinary chunk: one that is not
    auxiliary-marked and whose content is a non-empty string. *)
Definition primary_of (chunk : ChatCompletionChunk) : option string :=
  match reasoning_of chunk with
  | Some _ => None
  | None => if str_truthy (content_of chunk) then content_of chunk else None
  end.

(** What the dual-channel loop echoes for one chunk. *)
Definition deepseek_echo (chunk : ChatCompletionChunk) : option string :=
  match reasoning_of chunk with
  | Some r => Some (reasoning_marker +:+ r)
  | None => primary_of chunk
  end.

(** Concatenation of fragments, in order. *)
Definition join (l : list string) : string := foldr String.append "" l.

(** ** Conditions on the inputs *)

(** The section is absent, or it is a table without an access key. *)
Definition lacks_access_key (doc : gmap string pyval) (service : string) : Prop :=
  doc !! service = None ∨
  ∃ d, doc !! service = Some (PDict d) ∧ d !! "api_key" = None.

(** [chunk.choices[0]] exists. *)
Definition has_choice (chunk : ChatCompletionChunk) : bool :=
  match chunk_choices chunk with
  | _ :: _ => true
  | [] => false
  end.

(** [chunk.choices[0].delta.content is not None] *)
Definition has_content (chunk : ChatCompletionChunk) : bool :=
  match content_of chunk with
  | Some _ => true
  | None => false
  end.

(** ** Effects of a computation *)

(** The loops talk to the console only, and whatever they raise comes from
    a malformed chunk, never from argument checking. *)
Definition quiet {A} (m : M A) : Prop :=
  requests (trace m) = [] ∧ ∀ msg, result m ≠ Raise (ValueError msg).

(** ** The two wrappers, request first

    Both branches of [if stream:] start with the same remote call, so each
    wrapper is: load the configuration, send one request, reshape the
    reply. *)

Definition cfg_field (cfg : gmap string pyval) (k : string) : pyval :=
  default PNone (cfg !! k).

Definition openai_reshape (return_type stream : pyval) (response : remote_obj)
  : M retval :=
  if truthy stream then
    if eq_str return_type "json" then
      let* cs := iterate response in
      let* chunk_list := openai_json_loop cs [] in
      ret (RetChunks chunk_list)
    else if eq_str return_type "text" then
      let* cs := iterate response in
      let* full_content := openai_text_loop cs "" in
      let* _ := emit (EvPrint newline) in
      ret (RetText (Some full_content))
    else raise (ValueError return_type_error)
  else
    if eq_str return_type "json" then ret (RetResponse response)
    else if eq_str return_type "text" then
      let* m := response_message response in
      ret (RetText (message_content m))
    else raise (ValueError return_type_error).

Definition deepseek_reshape (return_type stream : pyval) (response : remote_obj)
  : M retval :=
  if truthy stream then
    if eq_str return_type "json" then
      let* cs := iterate response in
      let* chunk_list := deepseek_json_loop cs [] in
      ret (RetChunks chunk_list)
    else
      let* cs := iterate response in
      let* acc := deepseek_text_loop cs "" "" in
      let* _ := emit (EvPrint newline) in
      if eq_str return_type "both" then
        ret (RetBoth (Some (fst acc)) (Some (snd acc)))
      else ret (RetText (Some (fst acc)))
  else
    if eq_str return_type "json" then ret (RetResponse response)
    else if eq_str return_type "both" then
      let* m := response_message response in
      ret (RetBoth (message_content m) (getattr_reasoning m))
    else
      let* m := response_message response in
      ret (RetText (message_content m)).

(** The client and the request dictionary that the wrappers build from a
    loaded configuration. *)
Definition openai_client (cfg : gmap string pyval) : OpenAI :=
  create_openai_client (cfg_field cfg "api_key") (cfg_field cfg "base_url").

Definition openai_api_params (cfg : gmap string pyval)
  (content system stream : pyval) (kwargs : gmap string pyval) : gmap string pyval :=
  make_api_params (cfg_field cfg "model") (system_user system content) stream kwargs.

Definition deepseek_client (cfg : gmap string pyval) : OpenAI :=
  create_deepseek_client (cfg_field cfg "api_key") (cfg_field cfg "base_url").

Definition deepseek_api_params (cfg : gmap string pyval)
  (content system stream model messages : pyval) (kwargs : gmap string pyval)
  : gmap string pyval :=
  make_api_params
    (if truthy model then model else cfg_field cfg "model")
    (if is_none messages then system_user system content else messages)
    stream kwargs.

(** ** Statements of the specification, as worded

    These follow the words of the specification, not the code; they are
    compared with the code below. *)

(** The statement of the specification for a text-mode streaming run [m]
    over the chunks [cs]: the result is the concatenation of the content
    fragments that are present, and the console shows exactly these
    fragments and then a newline. *)
Definition text_stream_spec {A} (ret_text : string → A)
  (cs : list ChatCompletionChunk) (m : M A) : Prop :=
  result m = Return (ret_text (join (omap content_of cs))) ∧
  console (trace m) = EvPrint <$> (omap content_of cs ++ [newline]).

(** The statement of the specification for a raw-mode streaming run [m]
    over the chunks [cs]: the chunks with non-empty content are returned, in
    order, and echoed. *)
Definition json_stream_spec (cs : list ChatCompletionChunk) (m : M retval) : Prop :=
  let kept := List.filter (λ chunk, str_truthy (content_of chunk)) cs in
  result m = Return (RetChunks kept) ∧
  console (trace m) = EvPrintChunk <$> kept.

(** The statement of the specification for a call [m] of the text-only
    wrapper with an invalid output mode: it fails with a [ValueError] and
    sends no request. *)
Definition invalid_mode_spec {A} (m : M A) : Prop :=
  (∃ msg, result m = Raise (ValueError msg)) ∧ requests (trace m) = [].

(** ** Sample inputs *)

(** A configuration file with both sections. *)
Definition example_config : gmap string pyval :=
  {[ "openai" := PDict {[ "api_key" := PStr "k"; "model" := PStr "gpt-x" ]};
     "deepseek" := PDict {[ "api_key" := PStr "k2";
                            "base_url" := PStr "https://api.deepseek.com";
                            "model" := PStr "deepseek-chat" ]} ]}.

(** A file without a [deepseek] section and without an access key for
    [openai]. *)
Definition example_bad_config : gmap string pyval :=
  {[ "openai" := PDict {[ "model" := PStr "gpt-x" ]} ]}.

(** A world with one configuration file, whose remote end always gives
    [reply]. *)
Definition world_of (doc : gmap string pyval) (reply : string + remote_obj) : world :=
  {| files := {[ default_path := doc ]}; create := λ _ _, reply |}.

Definition example_openai_cfg : gmap string pyval :=
  {[ "api_key" := PStr "k"; "base_url" := PNone; "model" := PStr "gpt-x" ]}.

Definition example_deepseek_cfg : gmap string pyval :=
  {[ "api_key" := PStr "k2"; "base_url" := PStr "https://api.deepseek.com";
     "model" := PStr "deepseek-chat" ]}.

Definition text_chunk (s : string) : ChatCompletionChunk :=
  {| chunk_choices :=
       [ {| delta := Some {| delta_content := Some s;
                             delta_reasoning_content := Some None |} |} ] |}.

Definition reasoning_chunk (r : string) : ChatCompletionChunk :=
  {| chunk_choices :=
       [ {| delta := Some {| delta_content := None;
                             delta_reasoning_content := Some (Some r) |} |} ] |}.

(** A chunk with a reasoning fragment and content at once. *)
Definition mixed_chunk (r s : string) : ChatCompletionChunk :=
  {| chunk_choices :=
       [ {| delta := Some {| delta_content := Some s;
                             delta_reasoning_content := Some (Some r) |} |} ] |}.

(** A chunk whose first choice has no delta. *)
Definition no_delta_chunk : ChatCompletionChunk :=
  {| chunk_choices := [ {| delta := None |} ] |}.

Definition hello : list ChatCompletionChunk := [text_chunk "he"; text_chunk "llo"].

Definition thought_hello : list ChatCompletionChunk :=
  [reasoning_chunk "hm"; text_chunk "he"; text_chunk "llo"].

Definition completion (text : option string) (reasoning : attr) : ChatCompletion :=
  {| choices := [ {| message := {| message_content := text;
                                   message_reasoning_content := reasoning |} |} ] |}.

Definition streams (cs : list ChatCompletionChunk) : world :=
  world_of example_config (inr (Stream cs)).

Definition completes (r : ChatCompletion) : world :=
  world_of example_config (inr (Completion r)).

(** ** Further readings of a trace and of a result *)


(** The Python type of a returned value: the reply object, a list of
    chunks, a string (or [None]), a pair. *)
Inductive shape : Type := ShResponse | ShChunks | ShText | ShBoth.

Definition shape_of (v : retval) : shape :=
  match v with
  | RetResponse _ => ShResponse
  | RetChunks _ => ShChunks
  | RetText _ => ShText
  | RetBoth _ _ => ShBoth
  end.

(** The shape each wrapper documents for a mode and a streaming flag;
    [chat_openai] documents none for a mode other than "json" and "text". *)
Definition openai_shape (return_type stream : pyval) : option shape :=
  if eq_str return_type "json" then
    Some (if truthy stream then ShChunks else ShResponse)
  else if eq_str return_type "text" then Some ShText
  else None.

Definition deepseek_shape (return_type stream : pyval) : shape :=
  if eq_str return_type "json" then
    if truthy stream then ShChunks else ShResponse
  else if eq_str return_type "both" then ShBoth
  else ShText.

(** A pair cut down to its first component. *)
Definition primary_only (v : retval) : retval :=
  match v with
  | RetBoth content _ => RetText content
  | _ => v
  end.

Definition outcome_map {A B} (f : A → B) (o : outcome A) : outcome B :=
  match o with
  | Return a => Return (f a)
  | Raise e => Raise e
  end.

(** A trace of console output only. *)
Definition prints_only (t : list event) : Prop := console t = t.

(** * Properties *)

(** ** The monad and its traces *)

Lemma bind_Return {A B} (t : list event) (a : A) (k : A → M B) :
  bind (t, Return a) k = (t ++ trace (k a), result (k a)).
Proof. done. Qed.

Lemma bind_Raise {A B} (t : list event) (e : exn) (k : A → M B) :
  bind (t, Raise e) k = (t, Raise e).
Proof. done. Qed.

Lemma bind_ret {A B} (a : A) (k : A → M B) : bind (ret a) k = k a.
Proof. unfold ret. rewrite bind_Return. by destruct (k a). Qed.

Lemma bind_raise {A B} (e : exn) (k : A → M B) : bind (raise e) k = raise e.
Proof. done. Qed.

Lemma bind_emit {B} (ev : event) (k : unit → M B) :
  bind (emit ev) k = (ev :: trace (k tt), result (k tt)).
Proof. done. Qed.

Lemma bind_assoc {A B C} (m : M A) (f : A → M B) (g : B → M C) :
  bind (bind m f) g = bind m (λ a, bind (f a) g).
Proof.
  unfold bind. destruct m as [t [a|e]]; simpl; [|done].
  destruct (f a) as [t' [b|e]]; simpl; [|done].
  by rewrite app_assoc.
Qed.

Lemma result_bind_Return {A B} (m : M A) (k : A → M B) (b : B) :
  result (bind m k) = Return b →
  ∃ a, result m = Return a ∧ result (k a) = Return b.
Proof. unfold bind. destruct (result m) as [a|e]; [eauto|done]. Qed.

Lemma M_eta {A} (m : M A) : m = (trace m, result m).
Proof. by destruct m. Qed.

Lemma requests_app (t1 t2 : list event) :
  requests (t1 ++ t2) = requests t1 ++ requests t2.
Proof.
  induction t1 as [|ev t1 IH]; [done|].
  destruct ev; simpl; by rewrite IH.
Qed.

Lemma console_app (t1 t2 : list event) :
  console (t1 ++ t2) = console t1 ++ console t2.
Proof.
  induction t1 as [|ev t1 IH]; [done|].
  destruct ev; simpl; by rewrite IH.
Qed.

Lemma console_prints (l : list string) : console (EvPrint <$> l) = EvPrint <$> l.
Proof. induction l as [|s l IH]; [done|]. simpl. f_equal. exact IH. Qed.

Lemma console_print_chunks (l : list ChatCompletionChunk) :
  console (EvPrintChunk <$> l) = EvPrintChunk <$> l.
Proof. induction l as [|s l IH]; [done|]. simpl. f_equal. exact IH. Qed.

Lemma requests_prints (l : list string) : requests (EvPrint <$> l) = [].
Proof. by induction l. Qed.

Lemma requests_print_chunks (l : list ChatCompletionChunk) :
  requests (EvPrintChunk <$> l) = [].
Proof. by induction l. Qed.

Lemma append_assoc (a b c : string) : (a +:+ b) +:+ c = a +:+ (b +:+ c).
Proof.
  induction a as [|x a IH]; [done|].
  change (String x ((a +:+ b) +:+ c) = String x (a +:+ b +:+ c)).
  by rewrite IH.
Qed.

Lemma append_empty_r (a : string) : a +:+ "" = a.
Proof.
  induction a as [|x a IH]; [done|].
  change (String x (a +:+ "") = String x a).
  by rewrite IH.
Qed.

(** ** Loading the configuration *)

Section Config.

Variable w : world.

Lemma load_config_trace (path service : string) :
  trace (load_config w path service) = [EvRead path].
Proof.
  unfold load_config, toml_load, getitem, bind, emit, ret, raise. simpl.
  destruct (files w !! path) as [doc|]; simpl; [|done].
  destruct (doc !! service) as [v|]; simpl; [|done].
  destruct v as [| | | | |d]; simpl; try done.
  unfold getitem, ret, raise. by destruct (d !! "api_key").
Qed.

Lemma load_config_missing (path service : string) (doc : gmap string pyval) :
  files w !! path = Some doc →
  lacks_access_key doc service →
  ∃ k, (k = service ∨ k = "api_key") ∧
       load_config w path service = ([EvRead path], Raise (KeyError k)).
Proof.
  intros Hfile Hmiss.
  unfold load_config, toml_load, getitem, bind, emit, ret, raise. simpl.
  rewrite Hfile. simpl.
  destruct Hmiss as [Hsec | (d & Hsec & Hkey)]; rewrite Hsec; simpl.
  - exists service. by split; [left|].
  - exists "api_key". split; [by right|].
    unfold getitem. by rewrite Hkey.
Qed.

(** A configuration that loads has exactly the three keys. *)
Lemma load_config_Return (path service : string) (t : list event)
  (cfg : gmap string pyval) :
  load_config w path service = (t, Return cfg) →
  t = [EvRead path] ∧
  ∃ api_key base_url model,
    cfg = {[ "api_key" := api_key; "base_url" := base_url; "model" := model ]}.
Proof.
  intros H. split.
  - pose proof (load_config_trace path service) as Ht. by rewrite H in Ht.
  - revert H.
    unfold load_config, toml_load, getitem, bind, emit, ret, raise. simpl.
    destruct (files w !! path) as [doc|]; simpl; [|done].
    destruct (doc !! service) as [v|]; simpl; [|done].
    destruct v as [| | | | |d]; simpl; try done.
    unfold getitem, ret, raise. destruct (d !! "api_key") as [a|]; simpl; [|done].
    intros [= <-]. eauto.
Qed.

(** C7. When the configuration file has no section for the requested
    service, or that section has no access key, [load_config] fails with a
    [KeyError] (for the section name or for "api_key"); [chat_openai] and
    [chat_deepseek] then fail with that error having done nothing but read
    the file: their trace holds no remote request. *)
Theorem missing_config_fails_before_request (path : string)
  (doc : gmap string pyval) :
  files w !! path = Some doc →
  (∀ service, lacks_access_key doc service →
     ∃ k, (k = service ∨ k = "api_key") ∧
          load_config w path service = ([EvRead path], Raise (KeyError k))) ∧
  (path = default_path → lacks_access_key doc "openai" →
   ∀ content system return_type stream kwargs,
     ∃ k, chat_openai w content system return_type stream kwargs
          = ([EvRead path], Raise (KeyError k)) ∧
          requests (trace (chat_openai w content system return_type stream kwargs)) = []) ∧
  (path = default_path → lacks_access_key doc "deepseek" →
   ∀ content system return_type stream model messages kwargs,
     ∃ k, chat_deepseek w content system return_type stream model messages kwargs
          = ([EvRead path], Raise (KeyError k)) ∧
          requests (trace (chat_deepseek w content system return_type stream
                             model messages kwargs)) = []).
Proof.
  intros Hfile. split; [|split].
  - intros service Hmiss. by apply (load_config_missing path service doc).
  - intros -> Hmiss. intros.
    destruct (load_config_missing _ _ doc Hfile Hmiss) as (k & _ & Hload).
    exists k. unfold chat_openai. by rewrite Hload.
  - intros -> Hmiss. intros.
    destruct (load_config_missing _ _ doc Hfile Hmiss) as (k & _ & Hload).
    exists k. unfold chat_deepseek. by rewrite Hload.
Qed.

End Config.

(** ** The streaming loops *)

Section Loops.

Implicit Types (cs : list ChatCompletionChunk) (chunk : ChatCompletionChunk).

Lemma chunk_content_well_formed chunk :
  well_formed chunk = true → chunk_content chunk = ret (content_of chunk).
Proof.
  unfold well_formed, content_of, chunk_delta, chunk_content, chunk_choice0.
  destruct (chunk_choices chunk) as [|c ?]; [done|].
  rewrite bind_ret. by destruct (delta c).
Qed.

Lemma chunk_choice0_delta chunk :
  has_choice chunk = true →
  ∃ c, chunk_choice0 chunk = ret c ∧ delta c = chunk_delta chunk.
Proof.
  unfold has_choice, chunk_choice0, chunk_delta.
  destruct (chunk_choices chunk) as [|c ?]; [done|]. eauto.
Qed.

Lemma well_formed_has_choice chunk :
  well_formed chunk = true → has_choice chunk = true.
Proof.
  unfold well_formed, has_choice, chunk_delta.
  by destruct (chunk_choices chunk).
Qed.

Lemma openai_text_loop_spec cs (full_content : string) :
  Forall (λ chunk, well_formed chunk = true) cs →
  openai_text_loop cs full_content
  = (EvPrint <$> omap content_of cs,
     Return (full_content +:+ join (omap content_of cs))).
Proof.
  intros Hwf. revert full_content.
  induction Hwf as [|chunk cs Hc _ IH]; intros acc.
  - simpl. by rewrite append_empty_r.
  - simpl. rewrite (chunk_content_well_formed _ Hc), bind_ret.
    destruct (content_of chunk) as [s|]; [|apply IH].
    rewrite bind_emit, IH. simpl. by rewrite append_assoc.
Qed.

Lemma openai_json_loop_spec cs (chunk_list : list ChatCompletionChunk) :
  Forall (λ chunk, well_formed chunk = true) cs →
  openai_json_loop cs chunk_list
  = (EvPrintChunk <$> List.filter has_content cs,
     Return (chunk_list ++ List.filter has_content cs)).
Proof.
  intros Hwf. revert chunk_list.
  induction Hwf as [|chunk cs Hc _ IH]; intros acc.
  - simpl. by rewrite app_nil_r.
  - simpl. rewrite (chunk_content_well_formed _ Hc), bind_ret.
    unfold has_content.
    destruct (content_of chunk) as [s|]; [|apply IH].
    rewrite bind_emit, IH. simpl. by rewrite <- app_assoc.
Qed.

Lemma deepseek_json_loop_spec cs (chunk_list : list ChatCompletionChunk) :
  Forall (λ chunk, has_choice chunk = true) cs →
  deepseek_json_loop cs chunk_list
  = (EvPrintChunk <$> List.filter well_formed cs,
     Return (chunk_list ++ List.filter well_formed cs)).
Proof.
  intros Hwf. revert chunk_list.
  induction Hwf as [|chunk cs Hc _ IH]; intros acc.
  - simpl. by rewrite app_nil_r.
  - simpl. destruct (chunk_choice0_delta _ Hc) as (c & -> & Hd).
    rewrite bind_ret, Hd. unfold well_formed.
    destruct (chunk_delta chunk) as [d|]; [|apply IH].
    rewrite bind_emit, IH. simpl. by rewrite <- app_assoc.
Qed.

Lemma deepseek_text_loop_spec cs (full_content reasoning_content : string) :
  Forall (λ chunk, well_formed chunk = true) cs →
  deepseek_text_loop cs full_content reasoning_content
  = (EvPrint <$> omap deepseek_echo cs,
     Return (full_content +:+ join (omap primary_of cs),
             reasoning_content +:+ join (omap reasoning_of cs))).
Proof.
  intros Hwf. revert full_content reasoning_content.
  induction Hwf as [|chunk cs Hc _ IH]; intros acc racc.
  - simpl. by rewrite !append_empty_r.
  - simpl.
    destruct (chunk_choice0_delta _ (well_formed_has_choice _ Hc)) as (c & -> & Hd).
    rewrite bind_ret, Hd.
    unfold deepseek_echo, primary_of, reasoning_of, content_of.
    unfold well_formed in Hc.
    destruct (reasoning_fragment (chunk_delta chunk)) as [r|] eqn:Hr.
    + rewrite bind_emit, IH. simpl. by rewrite append_assoc.
    + destruct (chunk_delta chunk) as [d|]; [|done].
      destruct (str_truthy (delta_content d)) eqn:Ht; [|apply IH].
      destruct (delta_content d) as [s|]; [|done].
      rewrite bind_emit, IH. simpl. by rewrite append_assoc.
Qed.

(** Conversely, a loop that returns has met only chunks it could read: the
    conditions above are exactly the ones under which the loops return. *)

Lemma chunk_choice0_Return chunk (c : ChunkChoice) :
  result (chunk_choice0 chunk) = Return c →
  has_choice chunk = true ∧ delta c = chunk_delta chunk.
Proof.
  unfold chunk_choice0, has_choice, chunk_delta.
  destruct (chunk_choices chunk) as [|c' ?]; [done|]. by intros [= ->].
Qed.

Lemma chunk_content_Return chunk (o : option string) :
  result (chunk_content chunk) = Return o → well_formed chunk = true.
Proof.
  unfold chunk_content. intros H.
  apply result_bind_Return in H as (c & Hc & H).
  apply chunk_choice0_Return in Hc as [_ Hd].
  unfold well_formed. rewrite <- Hd. by destruct (delta c).
Qed.

Lemma openai_text_loop_Return cs (full_content v : string) :
  result (openai_text_loop cs full_content) = Return v →
  Forall (λ chunk, well_formed chunk = true) cs.
Proof.
  revert full_content. induction cs as [|chunk cs IH]; intros acc H; [constructor|].
  simpl in H. apply result_bind_Return in H as (o & Ho & H).
  constructor; [by apply chunk_content_Return in Ho|].
  destruct o as [s|]; [|by apply IH in H].
  apply result_bind_Return in H as (? & _ & H). by apply IH in H.
Qed.

Lemma openai_json_loop_Return cs (chunk_list v : list ChatCompletionChunk) :
  result (openai_json_loop cs chunk_list) = Return v →
  Forall (λ chunk, well_formed chunk = true) cs.
Proof.
  revert chunk_list. induction cs as [|chunk cs IH]; intros acc H; [constructor|].
  simpl in H. apply result_bind_Return in H as (o & Ho & H).
  constructor; [by apply chunk_content_Return in Ho|].
  destruct o as [s|]; [|by apply IH in H].
  apply result_bind_Return in H as (? & _ & H). by apply IH in H.
Qed.

Lemma deepseek_json_loop_Return cs (chunk_list v : list ChatCompletionChunk) :
  result (deepseek_json_loop cs chunk_list) = Return v →
  Forall (λ chunk, has_choice chunk = true) cs.
Proof.
  revert chunk_list. induction cs as [|chunk cs IH]; intros acc H; [constructor|].
  simpl in H. apply result_bind_Return in H as (c & Hc & H).
  constructor; [by apply chunk_choice0_Return in Hc as [? _]|].
  destruct (delta c); [|by apply IH in H].
  apply result_bind_Return in H as (? & _ & H). by apply IH in H.
Qed.

Lemma deepseek_text_loop_Return cs (full_content reasoning_content : string)
  (v : string * string) :
  result (deepseek_text_loop cs full_content reasoning_content) = Return v →
  Forall (λ chunk, well_formed chunk = true) cs.
Proof.
  revert full_content reasoning_content.
  induction cs as [|chunk cs IH]; intros acc racc H; [constructor|].
  simpl in H. apply result_bind_Return in H as (c & Hc & H).
  apply chunk_choice0_Return in Hc as [_ Hd].
  assert (is_Some (delta c) → well_formed chunk = true) as Hwf.
  { unfold well_formed. rewrite <- Hd. by intros [d ->]. }
  destruct (reasoning_fragment (delta c)) as [r|] eqn:Hr.
  - apply result_bind_Return in H as (? & _ & H). apply IH in H.
    constructor; [|done]. apply Hwf. revert Hr. by destruct (delta c).
  - destruct (delta c) as [d|]; [|done]. constructor; [by apply Hwf|].
    destruct (str_truthy (delta_content d)); [|by apply IH in H].
    apply result_bind_Return in H as (? & _ & H). by apply IH in H.
Qed.

End Loops.

(** ** Computations that send nothing *)

Lemma quiet_ret {A} (a : A) : quiet (ret a).
Proof. by split. Qed.

Lemma quiet_bind {A B} (m : M A) (k : A → M B) :
  quiet m → (∀ a, quiet (k a)) → quiet (bind m k).
Proof.
  intros [Hreq Hres] Hk. unfold bind.
  destruct (result m) as [a|e] eqn:Hm; [|split; [done|]].
  - destruct (Hk a) as [Hreq' Hres']. split; [|done].
    simpl. by rewrite requests_app, Hreq, Hreq'.
  - simpl. intros msg [= ->]. by apply (Hres msg).
Qed.

Lemma quiet_print {A} (ev : event) (m : M A) :
  requests [ev] = [] → quiet m → quiet (bind (emit ev) (λ _, m)).
Proof. intros Hev Hm. apply quiet_bind; [by split|done]. Qed.

Lemma quiet_chunk_choice0 (chunk : ChatCompletionChunk) : quiet (chunk_choice0 chunk).
Proof. unfold chunk_choice0. by destruct (chunk_choices chunk). Qed.

Lemma quiet_chunk_content (chunk : ChatCompletionChunk) : quiet (chunk_content chunk).
Proof.
  unfold chunk_content. apply quiet_bind; [apply quiet_chunk_choice0|].
  intros c. by destruct (delta c).
Qed.

Lemma quiet_iterate (response : remote_obj) : quiet (iterate response).
Proof. by destruct response. Qed.

Lemma quiet_response_message (response : remote_obj) :
  quiet (response_message response).
Proof. destruct response as [r|]; [|done]. simpl. by destruct (choices r). Qed.

Lemma quiet_openai_json_loop (cs chunk_list : list ChatCompletionChunk) :
  quiet (openai_json_loop cs chunk_list).
Proof.
  revert chunk_list. induction cs as [|chunk cs IH]; intros acc; [done|].
  simpl. apply quiet_bind; [apply quiet_chunk_content|].
  intros [s|]; [|apply IH]. by apply quiet_print.
Qed.

Lemma quiet_openai_text_loop (cs : list ChatCompletionChunk) (full_content : string) :
  quiet (openai_text_loop cs full_content).
Proof.
  revert full_content. induction cs as [|chunk cs IH]; intros acc; [done|].
  simpl. apply quiet_bind; [apply quiet_chunk_content|].
  intros [s|]; [|apply IH]. by apply quiet_print.
Qed.

Lemma quiet_deepseek_json_loop (cs chunk_list : list ChatCompletionChunk) :
  quiet (deepseek_json_loop cs chunk_list).
Proof.
  revert chunk_list. induction cs as [|chunk cs IH]; intros acc; [done|].
  simpl. apply quiet_bind; [apply quiet_chunk_choice0|].
  intros c. destruct (delta c); [|apply IH]. by apply quiet_print.
Qed.

Lemma quiet_deepseek_text_loop (cs : list ChatCompletionChunk)
  (full_content reasoning_content : string) :
  quiet (deepseek_text_loop cs full_content reasoning_content).
Proof.
  revert full_content reasoning_content.
  induction cs as [|chunk cs IH]; intros acc racc; [done|].
  simpl. apply quiet_bind; [apply quiet_chunk_choice0|].
  intros c. destruct (reasoning_fragment (delta c)); [by apply quiet_print|].
  destruct (delta c) as [d|]; [|done].
  destruct (str_truthy (delta_content d)); [|apply IH]. by apply quiet_print.
Qed.

(** ** One request for each call *)

Section Wrappers.

Variable w : world.

Lemma chat_openai_unfold (content system return_type stream : pyval)
  (kwargs : gmap string pyval) (t : list event) (cfg : gmap string pyval) :
  load_config w default_path "openai" = (t, Return cfg) →
  chat_openai w content system return_type stream kwargs
  = bind ([EvRead default_path], Return tt) (λ _,
      bind (completions_create w (openai_client cfg)
              (openai_api_params cfg content system stream kwargs))
           (openai_reshape return_type stream)).
Proof.
  intros Hcfg. destruct (load_config_Return _ _ _ _ _ Hcfg) as (-> & a & b & m & ->).
  unfold chat_openai. rewrite Hcfg.
  unfold openai_client, openai_api_params, openai_reshape, cfg_field, getitem.
  rewrite !bind_Return. simpl.
  destruct (truthy stream); reflexivity.
Qed.

Lemma chat_deepseek_unfold (content system return_type stream model messages : pyval)
  (kwargs : gmap string pyval) (t : list event) (cfg : gmap string pyval) :
  load_config w default_path "deepseek" = (t, Return cfg) →
  chat_deepseek w content system return_type stream model messages kwargs
  = bind ([EvRead default_path], Return tt) (λ _,
      bind (completions_create w (deepseek_client cfg)
              (deepseek_api_params cfg content system stream model messages kwargs))
           (deepseek_reshape return_type stream)).
Proof.
  intros Hcfg. destruct (load_config_Return _ _ _ _ _ Hcfg) as (-> & a & b & m & ->).
  unfold chat_deepseek. rewrite Hcfg.
  unfold deepseek_client, deepseek_api_params, deepseek_reshape, cfg_field, getitem.
  rewrite !bind_Return. simpl.
  destruct (truthy model); simpl; destruct (truthy stream); reflexivity.
Qed.

Lemma openai_reshape_requests (return_type stream : pyval) (response : remote_obj) :
  requests (trace (openai_reshape return_type stream response)) = [].
Proof.
  unfold openai_reshape.
  destruct (truthy stream), (eq_str return_type "json"),
    (eq_str return_type "text"); try done.
  - apply quiet_bind; [apply quiet_iterate|]. intros cs.
    apply quiet_bind; [apply quiet_openai_json_loop|done].
  - apply quiet_bind; [apply quiet_iterate|]. intros cs.
    apply quiet_bind; [apply quiet_openai_json_loop|done].
  - apply quiet_bind; [apply quiet_iterate|]. intros cs.
    apply quiet_bind; [apply quiet_openai_text_loop|]. intros s.
    by apply quiet_print.
  - apply quiet_bind; [apply quiet_response_message|done].
Qed.

Lemma quiet_deepseek_reshape (return_type stream : pyval) (response : remote_obj) :
  quiet (deepseek_reshape return_type stream response).
Proof.
  unfold deepseek_reshape.
  destruct (truthy stream), (eq_str return_type "json"); try done.
  - apply quiet_bind; [apply quiet_iterate|]. intros cs.
    apply quiet_bind; [apply quiet_deepseek_json_loop|done].
  - apply quiet_bind; [apply quiet_iterate|]. intros cs.
    apply quiet_bind; [apply quiet_deepseek_text_loop|]. intros acc.
    apply quiet_print; [done|]. by destruct (eq_str return_type "both").
  - destruct (eq_str return_type "both");
      (apply quiet_bind; [apply quiet_response_message|done]).
Qed.

(** A wrapper whose configuration loads sends exactly one request: the
    dictionary it assembled, through the client it built. *)
Lemma chat_openai_requests (content system return_type stream : pyval)
  (kwargs : gmap string pyval) (t : list event) (cfg : gmap string pyval) :
  load_config w default_path "openai" = (t, Return cfg) →
  requests (trace (chat_openai w content system return_type stream kwargs))
  = [(openai_client cfg, openai_api_params cfg content system stream kwargs)].
Proof.
  intros Hcfg. rewrite (chat_openai_unfold _ _ _ _ _ _ _ Hcfg).
  rewrite bind_Return. unfold completions_create. rewrite bind_assoc, bind_emit.
  simpl. f_equal.
  destruct (create w _ _) as [detail|o]; [done|].
  rewrite bind_ret. apply openai_reshape_requests.
Qed.

Lemma chat_deepseek_requests (content system return_type stream model messages : pyval)
  (kwargs : gmap string pyval) (t : list event) (cfg : gmap string pyval) :
  load_config w default_path "deepseek" = (t, Return cfg) →
  requests (trace (chat_deepseek w content system return_type stream model
                     messages kwargs))
  = [(deepseek_client cfg,
      deepseek_api_params cfg content system stream model messages kwargs)].
Proof.
  intros Hcfg. rewrite (chat_deepseek_unfold _ _ _ _ _ _ _ _ _ Hcfg).
  rewrite bind_Return. unfold completions_create. rewrite bind_assoc, bind_emit.
  simpl. f_equal.
  destruct (create w _ _) as [detail|o]; [done|].
  rewrite bind_ret. apply quiet_deepseek_reshape.
Qed.

(** The run of a wrapper once the remote end has answered. *)
Lemma chat_openai_answered (content system return_type stream : pyval)
  (kwargs : gmap string pyval) (t : list event) (cfg : gmap string pyval)
  (response : remote_obj) :
  load_config w default_path "openai" = (t, Return cfg) →
  create w (openai_client cfg) (openai_api_params cfg content system stream kwargs)
  = inr response →
  chat_openai w content system return_type stream kwargs
  = (EvRead default_path
       :: EvRequest (openai_client cfg)
            (openai_api_params cfg content system stream kwargs)
       :: trace (openai_reshape return_type stream response),
     result (openai_reshape return_type stream response)).
Proof.
  intros Hcfg Hans. rewrite (chat_openai_unfold _ _ _ _ _ _ _ Hcfg).
  rewrite bind_Return. unfold completions_create. rewrite bind_assoc, bind_emit.
  rewrite Hans, bind_ret. reflexivity.
Qed.

Lemma chat_deepseek_answered (content system return_type stream model messages : pyval)
  (kwargs : gmap string pyval) (t : list event) (cfg : gmap string pyval)
  (response : remote_obj) :
  load_config w default_path "deepseek" = (t, Return cfg) →
  create w (deepseek_client cfg)
    (deepseek_api_params cfg content system stream model messages kwargs)
  = inr response →
  chat_deepseek w content system return_type stream model messages kwargs
  = (EvRead default_path
       :: EvRequest (deepseek_client cfg)
            (deepseek_api_params cfg content system stream model messages kwargs)
       :: trace (deepseek_reshape return_type stream response),
     result (deepseek_reshape return_type stream response)).
Proof.
  intros Hcfg Hans. rewrite (chat_deepseek_unfold _ _ _ _ _ _ _ _ _ Hcfg).
  rewrite bind_Return. unfold completions_create. rewrite bind_assoc, bind_emit.
  rewrite Hans, bind_ret. reflexivity.
Qed.

End Wrappers.

(** ** Streaming in text mode *)

Section Streaming.

Variable w : world.

Implicit Types (content system stream model messages : pyval).
Implicit Types (kwargs cfg : gmap string pyval) (cs : list ChatCompletionChunk).

(** C1 (amended). In a streaming text-mode call whose chunks are well
    formed, [chat_openai] returns the concatenation, in arrival order, of
    the content fragments that are present and echoes exactly these
    fragments followed by a newline.  [chat_deepseek] returns the
    concatenation of the non-empty content fragments of the chunks that
    carry no reasoning fragment, and echoes, per chunk in order, the marked
    reasoning fragment or else the content fragment, followed by a
    newline. *)
Theorem streaming_text_concatenates content system stream kwargs cs :
  truthy stream = true →
  Forall (λ chunk, well_formed chunk = true) cs →
  (∀ t cfg,
   load_config w default_path "openai" = (t, Return cfg) →
   create w (openai_client cfg) (openai_api_params cfg content system stream kwargs)
   = inr (Stream cs) →
   text_stream_spec (λ s, RetText (Some s)) cs
     (chat_openai w content system (PStr "text") stream kwargs)) ∧
  (∀ t cfg model messages,
   load_config w default_path "deepseek" = (t, Return cfg) →
   create w (deepseek_client cfg)
     (deepseek_api_params cfg content system stream model messages kwargs)
   = inr (Stream cs) →
   let m := chat_deepseek w content system (PStr "text") stream model messages kwargs in
   result m = Return (RetText (Some (join (omap primary_of cs)))) ∧
   console (trace m) = EvPrint <$> (omap deepseek_echo cs ++ [newline])).
Proof.
  intros Hs Hwf. split.
  - intros t cfg Hcfg Hans. unfold text_stream_spec.
    rewrite (chat_openai_answered _ _ _ _ _ _ _ _ _ Hcfg Hans).
    unfold openai_reshape. rewrite Hs. simpl eq_str. cbv iota.
    simpl iterate. rewrite bind_ret, (openai_text_loop_spec _ _ Hwf).
    rewrite bind_Return, bind_emit. simpl.
    split; [done|].
    by rewrite console_app, console_prints, fmap_app.
  - intros t cfg model messages Hcfg Hans.
    rewrite (chat_deepseek_answered _ _ _ _ _ _ _ _ _ _ _ Hcfg Hans).
    unfold deepseek_reshape. rewrite Hs. simpl eq_str. cbv iota.
    simpl iterate. rewrite bind_ret, (deepseek_text_loop_spec _ _ _ Hwf).
    rewrite bind_Return, bind_emit. simpl.
    split; [done|].
    by rewrite console_app, console_prints, fmap_app.
Qed.

(** C4. In a streaming dual-channel call of [chat_deepseek] whose chunks
    are well formed, the returned pair is (concatenation of the primary
    fragments, concatenation of the auxiliary fragments) in arrival order.
    A chunk is routed to one channel only: an auxiliary-marked chunk gives
    nothing to the primary accumulator, an ordinary chunk nothing to the
    auxiliary one; a primary fragment is the chunk's content and an
    auxiliary fragment is its reasoning attribute. *)
Theorem streaming_both_separates_channels content system stream model messages
  kwargs t cfg cs :
  truthy stream = true →
  Forall (λ chunk, well_formed chunk = true) cs →
  load_config w default_path "deepseek" = (t, Return cfg) →
  create w (deepseek_client cfg)
    (deepseek_api_params cfg content system stream model messages kwargs)
  = inr (Stream cs) →
  result (chat_deepseek w content system (PStr "both") stream model messages kwargs)
  = Return (RetBoth (Some (join (omap primary_of cs)))
                    (Some (join (omap reasoning_of cs)))) ∧
  (∀ chunk r, reasoning_of chunk = Some r →
     primary_of chunk = None ∧
     ∃ d, chunk_delta chunk = Some d ∧ delta_reasoning_content d = Some (Some r)) ∧
  (∀ chunk s, primary_of chunk = Some s →
     reasoning_of chunk = None ∧ content_of chunk = Some s).
Proof.
  intros Hs Hwf Hcfg Hans. split; [|split].
  - rewrite (chat_deepseek_answered _ _ _ _ _ _ _ _ _ _ _ Hcfg Hans).
    unfold deepseek_reshape. rewrite Hs. simpl eq_str. cbv iota.
    simpl iterate. rewrite bind_ret, (deepseek_text_loop_spec _ _ _ Hwf).
    rewrite bind_Return, bind_emit. reflexivity.
  - intros chunk r Hr. unfold primary_of. rewrite Hr. split; [done|].
    revert Hr. unfold reasoning_of, reasoning_fragment.
    destruct (chunk_delta chunk) as [d|]; [|done].
    destruct (delta_reasoning_content d) as [[r'|]|] eqn:Hd; try done.
    destruct (String.eqb r' ""); [done|]. intros [= ->]. eauto.
  - intros chunk s. unfold primary_of.
    destruct (reasoning_of chunk); [done|].
    destruct (str_truthy (content_of chunk)); [|done]. by intros ->.
Qed.

(** C5 (amended). In a streaming raw-mode call the wrapper returns, in
    arrival order, exactly the chunks that pass its test, and echoes exactly
    the returned chunks, in order.  The test of [chat_openai] is that the
    content is not [None] (an empty string passes); the test of
    [chat_deepseek] is that the delta is not [None], whatever the content. *)
Theorem streaming_json_collects content system stream kwargs cs :
  truthy stream = true →
  (∀ t cfg,
   Forall (λ chunk, well_formed chunk = true) cs →
   load_config w default_path "openai" = (t, Return cfg) →
   create w (openai_client cfg) (openai_api_params cfg content system stream kwargs)
   = inr (Stream cs) →
   let m := chat_openai w content system (PStr "json") stream kwargs in
   result m = Return (RetChunks (List.filter has_content cs)) ∧
   console (trace m) = EvPrintChunk <$> List.filter has_content cs) ∧
  (∀ t cfg model messages,
   Forall (λ chunk, has_choice chunk = true) cs →
   load_config w default_path "deepseek" = (t, Return cfg) →
   create w (deepseek_client cfg)
     (deepseek_api_params cfg content system stream model messages kwargs)
   = inr (Stream cs) →
   let m := chat_deepseek w content system (PStr "json") stream model messages kwargs in
   result m = Return (RetChunks (List.filter well_formed cs)) ∧
   console (trace m) = EvPrintChunk <$> List.filter well_formed cs).
Proof.
  intros Hs. split.
  - intros t cfg Hwf Hcfg Hans.
    rewrite (chat_openai_answered _ _ _ _ _ _ _ _ _ Hcfg Hans).
    unfold openai_reshape. rewrite Hs. simpl eq_str. cbv iota.
    simpl iterate. rewrite bind_ret, (openai_json_loop_spec _ _ Hwf).
    rewrite bind_Return. simpl. split; [done|].
    by rewrite app_nil_r, console_print_chunks.
  - intros t cfg model messages Hwf Hcfg Hans.
    rewrite (chat_deepseek_answered _ _ _ _ _ _ _ _ _ _ _ Hcfg Hans).
    unfold deepseek_reshape. rewrite Hs. simpl eq_str. cbv iota.
    simpl iterate. rewrite bind_ret, (deepseek_json_loop_spec _ _ Hwf).
    rewrite bind_Return. simpl. split; [done|].
    by rewrite app_nil_r, console_print_chunks.
Qed.

End Streaming.

(** ** Output modes *)

Section Modes.

Variable w : world.

Implicit Types (content system stream model messages : pyval).
Implicit Types (kwargs cfg : gmap string pyval) (mode : string).

(** C3 (amended). For every output-mode string other than "json" and
    "text", a call of [chat_openai] whose configuration loads and whose
    remote call returns fails with a [ValueError], streaming or not.  The
    check comes after the remote call: the request has been sent, exactly
    once, when the error is raised, and nothing of the reply is consumed or
    echoed. *)
Theorem openai_invalid_mode_raises_after_request content system stream kwargs
  t cfg mode response :
  mode ≠ "json" → mode ≠ "text" →
  load_config w default_path "openai" = (t, Return cfg) →
  create w (openai_client cfg) (openai_api_params cfg content system stream kwargs)
  = inr response →
  let m := chat_openai w content system (PStr mode) stream kwargs in
  result m = Raise (ValueError return_type_error) ∧
  requests (trace m)
  = [(openai_client cfg, openai_api_params cfg content system stream kwargs)] ∧
  console (trace m) = [].
Proof.
  intros Hj Ht Hcfg Hans.
  rewrite (chat_openai_answered _ _ _ _ _ _ _ _ _ Hcfg Hans).
  unfold openai_reshape. simpl eq_str.
  apply String.eqb_neq in Hj, Ht. rewrite Hj, Ht.
  by destruct (truthy stream).
Qed.

(** C8. A non-streaming dual-channel call of [chat_deepseek] whose reply
    has a first choice returns the pair of that choice's message content
    and its reasoning attribute; when the message has no such attribute the
    second component is the empty string. *)
Theorem deepseek_both_returns_pair content system stream model messages kwargs
  t cfg r c rest :
  truthy stream = false →
  load_config w default_path "deepseek" = (t, Return cfg) →
  create w (deepseek_client cfg)
    (deepseek_api_params cfg content system stream model messages kwargs)
  = inr (Completion r) →
  choices r = c :: rest →
  ∃ second,
    result (chat_deepseek w content system (PStr "both") stream model messages kwargs)
    = Return (RetBoth (message_content (message c)) second) ∧
    (message_reasoning_content (message c) = None → second = Some "") ∧
    (∀ v, message_reasoning_content (message c) = Some v → second = v).
Proof.
  intros Hs Hcfg Hans Hc.
  exists (getattr_reasoning (message c)).
  rewrite (chat_deepseek_answered _ _ _ _ _ _ _ _ _ _ _ Hcfg Hans).
  unfold deepseek_reshape. rewrite Hs. simpl eq_str. cbv iota.
  unfold response_message. rewrite Hc, bind_ret.
  unfold getattr_reasoning.
  split; [done|]. split; [by intros ->|by intros v ->].
Qed.

End Modes.

(** ** Binding the arguments of a call *)

Lemma bind_positional_trace (names : list string) (actuals : list pyval)
  (slots : gmap string pyval) :
  trace (bind_positional names actuals slots) = [].
Proof.
  revert names slots. induction actuals as [|a actuals IH]; intros names slots.
  - by destruct names.
  - destruct names as [|n names]; [done|]. apply IH.
Qed.

(** Keywords that name a parameter never reach [kwargs]. *)
Lemma bind_keywords_kwargs (names : list string) (kws : list (string * pyval))
  (slots kwargs : gmap string pyval) (t : list event)
  (slots' kwargs' : gmap string pyval) :
  bind_keywords names kws slots kwargs = (t, Return (slots', kwargs')) →
  (∀ k, k ∈ names → kwargs !! k = None) →
  t = [] ∧ ∀ k, k ∈ names → kwargs' !! k = None.
Proof.
  revert slots kwargs.
  induction kws as [|[k v] kws IH]; intros slots kwargs Hrun Hinv.
  - simpl in Hrun. by injection Hrun as <- <- <-.
  - simpl in Hrun. destruct (bool_decide (k ∈ names)) eqn:Hk.
    + destruct (slots !! k); [done|]. by apply (IH _ _ Hrun).
    + destruct (kwargs !! k); [done|]. apply (IH _ _ Hrun).
      intros k' Hk'. rewrite lookup_insert_ne; [by apply Hinv|].
      intros <-. by apply bool_decide_eq_false in Hk.
Qed.

Lemma bind_args_Return (names : list string) (c : call)
  (slots kwargs : gmap string pyval) :
  result (bind_args names c) = Return (slots, kwargs) →
  bind_args names c = ([], Return (slots, kwargs)) ∧
  ∀ k, k ∈ names → kwargs !! k = None.
Proof.
  unfold bind_args, bind. intros Hrun.
  pose proof (bind_positional_trace names (args c) ∅) as Htr.
  destruct (bind_positional names (args c) ∅) as [t1 [s1|e]]; [|done].
  simpl in *. subst t1.
  destruct (bind_keywords names (keywords c) s1 ∅) as [t2 [[s2 k2]|e]] eqn:Hkw;
    [|done].
  simpl in *. injection Hrun as -> ->.
  destruct (bind_keywords_kwargs _ _ _ _ _ _ _ Hkw) as [-> Hinv]; [done|].
  done.
Qed.

Section Requests.

Variable w : world.

Implicit Types (content system return_type stream model messages : pyval).
Implicit Types (kwargs slots cfg : gmap string pyval) (c : call).

Lemma call_chat_deepseek_bound c slots kwargs :
  result (bind_args deepseek_params c) = Return (slots, kwargs) →
  call_chat_deepseek w c
  = chat_deepseek w
      (param slots "content" (PStr ""))
      (param slots "system" (PStr default_deepseek_system))
      (param slots "return_type" (PStr "text"))
      (param slots "stream" (PBool false))
      (param slots "model" PNone)
      (param slots "messages" PNone)
      kwargs.
Proof.
  intros Hb. destruct (bind_args_Return _ _ _ _ Hb) as [Heq _].
  unfold call_chat_deepseek. rewrite Heq, bind_Return. simpl.
  by destruct (chat_deepseek _ _ _ _ _ _ _ _).
Qed.

(** C2. When a call of [chat_deepseek] supplies a message history other
    than [None] (positionally or as the keyword [messages]) and the
    configuration loads, the one request that is sent carries that history
    verbatim under "messages": the system/user pair is not synthesized. *)
Theorem supplied_history_sent_verbatim c slots kwargs (history : pyval) t cfg :
  result (bind_args deepseek_params c) = Return (slots, kwargs) →
  slots !! "messages" = Some history →
  history ≠ PNone →
  load_config w default_path "deepseek" = (t, Return cfg) →
  ∃ client api_params,
    requests (trace (call_chat_deepseek w c)) = [(client, api_params)] ∧
    api_params !! "messages" = Some history.
Proof.
  intros Hb Hm Hne Hcfg.
  rewrite (call_chat_deepseek_bound _ _ _ Hb).
  rewrite (chat_deepseek_requests _ _ _ _ _ _ _ _ _ _ Hcfg).
  eexists _, _. split; [done|].
  destruct (bind_args_Return _ _ _ _ Hb) as [_ Hinv].
  unfold deepseek_api_params, make_api_params, param. rewrite Hm. simpl.
  rewrite lookup_union_r; [|apply Hinv; set_solver].
  destruct history; done.
Qed.

(** The model field of the request of [chat_deepseek]: a truthy override
    wins; [None], or no argument at all, leaves the configured model.  An
    override that is a falsy value is treated like [None] by [model or
    cfg["model"]]. *)
Lemma deepseek_model_field c slots kwargs t cfg :
  result (bind_args deepseek_params c) = Return (slots, kwargs) →
  load_config w default_path "deepseek" = (t, Return cfg) →
  ∃ client api_params,
    requests (trace (call_chat_deepseek w c)) = [(client, api_params)] ∧
    api_params !! "model"
    = Some (if truthy (param slots "model" PNone) then param slots "model" PNone
            else cfg_field cfg "model").
Proof.
  intros Hb Hcfg.
  rewrite (call_chat_deepseek_bound _ _ _ Hb).
  rewrite (chat_deepseek_requests _ _ _ _ _ _ _ _ _ _ Hcfg).
  eexists _, _. split; [done|].
  destruct (bind_args_Return _ _ _ _ Hb) as [_ Hinv].
  unfold deepseek_api_params, make_api_params.
  rewrite lookup_union_r; [|apply Hinv; set_solver].
  done.
Qed.

(** A truthy override is the model of the request; without an override the
    configured model is. *)
Lemma deepseek_model_override c slots kwargs t cfg :
  result (bind_args deepseek_params c) = Return (slots, kwargs) →
  load_config w default_path "deepseek" = (t, Return cfg) →
  ∃ client api_params,
    requests (trace (call_chat_deepseek w c)) = [(client, api_params)] ∧
    (∀ override, slots !! "model" = Some override → truthy override = true →
       api_params !! "model" = Some override) ∧
    (slots !! "model" = None → api_params !! "model" = cfg !! "model").
Proof.
  intros Hb Hcfg.
  destruct (deepseek_model_field _ _ _ _ _ Hb Hcfg) as (client & p & Hreq & Hm).
  exists client, p. split; [done|]. unfold param in Hm. split.
  - intros override Hs Ht. by rewrite Hs in Hm; simpl in Hm; rewrite Ht in Hm.
  - intros Hs. rewrite Hs in Hm. simpl in Hm. rewrite Hm.
    destruct (load_config_Return _ _ _ _ _ Hcfg) as (_ & a & b & m & ->).
    reflexivity.
Qed.

(** C9. Whatever key the passthrough dictionary [kwargs] holds, its value
    is the one found in the request: [kwargs] is merged last.  This covers
    "model", "messages" and "stream" for both wrappers; and a call of
    [chat_openai] with the keyword [model], which is not one of its
    parameters, replaces the configured model. *)
Theorem kwargs_override_request_fields content system return_type stream
  model messages kwargs (k : string) (v : pyval) :
  kwargs !! k = Some v →
  (∀ t cfg,
   load_config w default_path "openai" = (t, Return cfg) →
   ∃ client api_params,
     requests (trace (chat_openai w content system return_type stream kwargs))
     = [(client, api_params)] ∧ api_params !! k = Some v) ∧
  (∀ t cfg,
   load_config w default_path "deepseek" = (t, Return cfg) →
   ∃ client api_params,
     requests (trace (chat_deepseek w content system return_type stream model
                        messages kwargs))
     = [(client, api_params)] ∧ api_params !! k = Some v) ∧
  (∀ t cfg (override : pyval),
   load_config w default_path "openai" = (t, Return cfg) →
   ∃ client api_params,
     requests (trace (call_chat_openai w
                        {| args := [content]; keywords := [("model", override)] |}))
     = [(client, api_params)] ∧ api_params !! "model" = Some override).
Proof.
  intros Hk. split; [|split]; [intros t cfg Hcfg..|intros t cfg override Hcfg].
  - rewrite (chat_openai_requests _ _ _ _ _ _ _ _ Hcfg).
    eexists _, _. split; [done|].
    unfold openai_api_params, make_api_params.
    by apply lookup_union_Some_l.
  - rewrite (chat_deepseek_requests _ _ _ _ _ _ _ _ _ _ Hcfg).
    eexists _, _. split; [done|].
    unfold deepseek_api_params, make_api_params.
    by apply lookup_union_Some_l.
  - unfold call_chat_openai.
    change (bind_args openai_params
              {| args := [content]; keywords := [("model", override)] |})
      with (@ret (gmap string pyval * gmap string pyval)
              (<["content" := content]> ∅, <["model" := override]> ∅)).
    rewrite bind_ret. simpl.
    rewrite (chat_openai_requests _ _ _ _ _ _ _ _ Hcfg).
    eexists _, _. split; [done|].
    unfold openai_api_params, make_api_params.
    apply lookup_union_Some_l, lookup_insert_eq.
Qed.

End Requests.

(** ** Modes that [chat_deepseek] does not name *)

Lemma load_config_no_ValueError (w : world) (path service msg : string) :
  result (load_config w path service) ≠ Raise (ValueError msg).
Proof.
  unfold load_config, toml_load, getitem, bind, emit, ret, raise. simpl.
  destruct (files w !! path) as [doc|]; simpl; [|done].
  destruct (doc !! service) as [v|]; simpl; [|done].
  destruct v as [| | | | |d]; simpl; try done.
  unfold getitem, ret, raise. by destruct (d !! "api_key").
Qed.

Section Fallthrough.

Variable w : world.

Implicit Types (content system stream model messages : pyval).
Implicit Types (kwargs cfg : gmap string pyval) (mode : string).

Lemma chat_deepseek_no_ValueError content system return_type stream model
  messages kwargs msg :
  result (chat_deepseek w content system return_type stream model messages kwargs)
  ≠ Raise (ValueError msg).
Proof.
  destruct (load_config w default_path "deepseek") as [t [cfg|e]] eqn:Hcfg.
  - rewrite (chat_deepseek_unfold _ _ _ _ _ _ _ _ _ _ Hcfg).
    rewrite bind_Return. unfold completions_create.
    rewrite bind_assoc, bind_emit. simpl.
    destruct (create w _ _) as [detail|o]; [done|].
    rewrite bind_ret. apply quiet_deepseek_reshape.
  - pose proof (load_config_no_ValueError w default_path "deepseek" msg) as Hne.
    unfold chat_deepseek. rewrite Hcfg in Hne |- *. rewrite bind_Raise.
    simpl in *. intros [= ->]. by apply Hne.
Qed.

(** C10. For every output-mode string other than "json" and "both",
    [chat_deepseek] never raises a [ValueError]; a streaming call over well
    formed chunks returns the concatenated primary content, as in text
    mode, and a non-streaming call returns the content of the first
    choice's message. *)
Theorem deepseek_unnamed_mode_falls_through content system stream model messages
  kwargs mode :
  mode ≠ "json" → mode ≠ "both" →
  let m := chat_deepseek w content system (PStr mode) stream model messages kwargs in
  (∀ msg, result m ≠ Raise (ValueError msg)) ∧
  (∀ t cfg cs,
     truthy stream = true →
     load_config w default_path "deepseek" = (t, Return cfg) →
     create w (deepseek_client cfg)
       (deepseek_api_params cfg content system stream model messages kwargs)
     = inr (Stream cs) →
     Forall (λ chunk, well_formed chunk = true) cs →
     result m = Return (RetText (Some (join (omap primary_of cs))))) ∧
  (∀ t cfg r c rest,
     truthy stream = false →
     load_config w default_path "deepseek" = (t, Return cfg) →
     create w (deepseek_client cfg)
       (deepseek_api_params cfg content system stream model messages kwargs)
     = inr (Completion r) →
     choices r = c :: rest →
     result m = Return (RetText (message_content (message c)))).
Proof.
  intros Hj Hb m. apply String.eqb_neq in Hj, Hb. subst m.
  split; [|split].
  - intros msg. apply chat_deepseek_no_ValueError.
  - intros t cfg cs Hs Hcfg Hans Hwf.
    rewrite (chat_deepseek_answered _ _ _ _ _ _ _ _ _ _ _ Hcfg Hans).
    unfold deepseek_reshape. rewrite Hs. simpl eq_str. rewrite Hj, Hb.
    simpl iterate. rewrite bind_ret, (deepseek_text_loop_spec _ _ _ Hwf).
    rewrite bind_Return, bind_emit. reflexivity.
  - intros t cfg r c rest Hs Hcfg Hans Hc.
    rewrite (chat_deepseek_answered _ _ _ _ _ _ _ _ _ _ _ Hcfg Hans).
    unfold deepseek_reshape. rewrite Hs. simpl eq_str. rewrite Hj, Hb.
    unfold response_message. by rewrite Hc, bind_ret.
Qed.

End Fallthrough.

(** * Concrete runs *)

Lemma streaming_text_concatenates_witness :
  (result (chat_openai (streams hello) (PStr "hi") (PStr "sys") (PStr "text")
             (PBool true) ∅)
   = Return (RetText (Some "hello")) ∧
   console (trace (chat_openai (streams hello) (PStr "hi") (PStr "sys") (PStr "text")
                     (PBool true) ∅))
   = [EvPrint "he"; EvPrint "llo"; EvPrint newline]) ∧
  (result (chat_deepseek (streams thought_hello) (PStr "hi") (PStr "sys")
             (PStr "text") (PBool true) PNone PNone ∅)
   = Return (RetText (Some "hello")) ∧
   console (trace (chat_deepseek (streams thought_hello) (PStr "hi") (PStr "sys")
                     (PStr "text") (PBool true) PNone PNone ∅))
   = [EvPrint (reasoning_marker +:+ "hm"); EvPrint "he"; EvPrint "llo";
      EvPrint newline]).
Proof.
  split.
  - destruct (streaming_text_concatenates (streams hello) (PStr "hi") (PStr "sys")
                (PBool true) ∅ hello) as [H _];
      [reflexivity | repeat constructor |].
    apply (H [EvRead default_path] example_openai_cfg); vm_compute; reflexivity.
  - destruct (streaming_text_concatenates (streams thought_hello) (PStr "hi")
                (PStr "sys") (PBool true) ∅ thought_hello) as [_ H];
      [reflexivity | repeat constructor |].
    apply (H [EvRead default_path] example_deepseek_cfg PNone PNone);
      vm_compute; reflexivity.
Defined.

(** C1 as stated fails for [chat_deepseek]: a reasoning chunk is echoed,
    with its marker, although it carries no content. *)
Lemma deepseek_text_stream_echoes_reasoning :
  ¬ text_stream_spec (λ s, RetText (Some s)) thought_hello
      (chat_deepseek (streams thought_hello) (PStr "hi") (PStr "sys") (PStr "text")
         (PBool true) PNone PNone ∅).
Proof. intros [_ H]. vm_compute in H. discriminate H. Qed.

Lemma supplied_history_sent_verbatim_witness :
  ∃ client api_params,
    requests (trace (call_chat_deepseek (completes (completion (Some "ok") None))
                       {| args := [];
                          keywords := [("messages", PList [PDict {[ "role" := PStr "user";
                                                                    "content" := PStr "hi" ]}])] |}))
    = [(client, api_params)] ∧
    api_params !! "messages"
    = Some (PList [PDict {[ "role" := PStr "user"; "content" := PStr "hi" ]}]).
Proof.
  apply (supplied_history_sent_verbatim _ _
           {[ "messages" := PList [PDict {[ "role" := PStr "user";
                                            "content" := PStr "hi" ]}] ]}
           ∅ _ [EvRead default_path] example_deepseek_cfg);
    [vm_compute; reflexivity | vm_compute; reflexivity | discriminate
    | vm_compute; reflexivity].
Defined.

Lemma openai_invalid_mode_raises_after_request_witness :
  result (chat_openai (completes (completion (Some "ok") None)) (PStr "hi")
            (PStr "sys") (PStr "xml") (PBool false) ∅)
  = Raise (ValueError return_type_error) ∧
  requests (trace (chat_openai (completes (completion (Some "ok") None)) (PStr "hi")
                     (PStr "sys") (PStr "xml") (PBool false) ∅))
  = [(openai_client example_openai_cfg,
      openai_api_params example_openai_cfg (PStr "hi") (PStr "sys") (PBool false) ∅)] ∧
  console (trace (chat_openai (completes (completion (Some "ok") None)) (PStr "hi")
                    (PStr "sys") (PStr "xml") (PBool false) ∅))
  = [].
Proof.
  apply (openai_invalid_mode_raises_after_request
           (completes (completion (Some "ok") None)) (PStr "hi") (PStr "sys")
           (PBool false) ∅ [EvRead default_path] example_openai_cfg "xml"
           (Completion (completion (Some "ok") None)));
    [discriminate | discriminate | vm_compute; reflexivity | reflexivity].
Defined.

(** C3 as stated fails: with the invalid mode "xml" the non-streaming call
    has sent its request by the time it raises. *)
Lemma openai_invalid_mode_sends_request :
  ¬ invalid_mode_spec
      (chat_openai (completes (completion (Some "ok") None)) (PStr "hi") (PStr "sys")
         (PStr "xml") (PBool false) ∅).
Proof. intros [_ H]. vm_compute in H. discriminate H. Qed.

Lemma streaming_both_separates_channels_witness :
  result (chat_deepseek (streams thought_hello) (PStr "hi") (PStr "sys") (PStr "both")
            (PBool true) PNone PNone ∅)
  = Return (RetBoth (Some "hello") (Some "hm")).
Proof.
  apply (streaming_both_separates_channels (streams thought_hello) (PStr "hi")
           (PStr "sys") (PBool true) PNone PNone ∅ [EvRead default_path]
           example_deepseek_cfg thought_hello);
    [reflexivity | repeat constructor | vm_compute; reflexivity | reflexivity].
Defined.

Lemma streaming_json_collects_witness :
  (result (chat_openai (streams [text_chunk "he"; reasoning_chunk "hm"; text_chunk ""])
             (PStr "hi") (PStr "sys") (PStr "json") (PBool true) ∅)
   = Return (RetChunks [text_chunk "he"; text_chunk ""]) ∧
   console (trace (chat_openai
                     (streams [text_chunk "he"; reasoning_chunk "hm"; text_chunk ""])
                     (PStr "hi") (PStr "sys") (PStr "json") (PBool true) ∅))
   = [EvPrintChunk (text_chunk "he"); EvPrintChunk (text_chunk "")]) ∧
  (result (chat_deepseek (streams thought_hello) (PStr "hi") (PStr "sys") (PStr "json")
             (PBool true) PNone PNone ∅)
   = Return (RetChunks thought_hello) ∧
   console (trace (chat_deepseek (streams thought_hello) (PStr "hi") (PStr "sys")
                     (PStr "json") (PBool true) PNone PNone ∅))
   = EvPrintChunk <$> thought_hello).
Proof.
  split.
  - destruct (streaming_json_collects
                (streams [text_chunk "he"; reasoning_chunk "hm"; text_chunk ""])
                (PStr "hi") (PStr "sys") (PBool true) ∅
                [text_chunk "he"; reasoning_chunk "hm"; text_chunk ""]) as [H _];
      [reflexivity|].
    apply (H [EvRead default_path] example_openai_cfg);
      [repeat constructor | vm_compute; reflexivity | reflexivity].
  - destruct (streaming_json_collects (streams thought_hello) (PStr "hi") (PStr "sys")
                (PBool true) ∅ thought_hello) as [_ H]; [reflexivity|].
    apply (H [EvRead default_path] example_deepseek_cfg PNone PNone);
      [repeat constructor | vm_compute; reflexivity | reflexivity].
Defined.

(** C5 as stated fails for [chat_deepseek]: the reasoning chunk, whose
    content is [None], is returned with the others. *)
Lemma deepseek_json_stream_keeps_reasoning_chunk :
  ¬ json_stream_spec thought_hello
      (chat_deepseek (streams thought_hello) (PStr "hi") (PStr "sys") (PStr "json")
         (PBool true) PNone PNone ∅).
Proof. intros [H _]. vm_compute in H. discriminate H. Qed.

(** C6. With the override [model=""] the request carries the configured
    model "deepseek-chat", not the override. *)
Lemma empty_model_override_is_dropped :
  ∃ client api_params,
    requests (trace (call_chat_deepseek (completes (completion (Some "ok") None))
                       {| args := [PStr "hi"]; keywords := [("model", PStr "")] |}))
    = [(client, api_params)] ∧
    api_params !! "model" = Some (PStr "deepseek-chat") ∧
    api_params !! "model" ≠ Some (PStr "").
Proof. eexists _, _. split; [vm_compute; reflexivity|]. by vm_compute. Qed.

Lemma missing_config_fails_before_request_witness :
  (∃ k, (k = "deepseek" ∨ k = "api_key") ∧
     load_config (world_of example_bad_config (inl "unreachable")) default_path "deepseek"
     = ([EvRead default_path], Raise (KeyError k))) ∧
  (∃ k, chat_openai (world_of example_bad_config (inl "unreachable")) (PStr "hi")
          (PStr "sys") (PStr "text") (PBool false) ∅
        = ([EvRead default_path], Raise (KeyError k)) ∧
        requests (trace (chat_openai (world_of example_bad_config (inl "unreachable"))
                           (PStr "hi") (PStr "sys") (PStr "text") (PBool false) ∅))
        = []) ∧
  (∃ k, chat_deepseek (world_of example_bad_config (inl "unreachable")) (PStr "hi")
          (PStr "sys") (PStr "text") (PBool false) PNone PNone ∅
        = ([EvRead default_path], Raise (KeyError k)) ∧
        requests (trace (chat_deepseek (world_of example_bad_config (inl "unreachable"))
                           (PStr "hi") (PStr "sys") (PStr "text") (PBool false)
                           PNone PNone ∅))
        = []).
Proof.
  destruct (missing_config_fails_before_request
              (world_of example_bad_config (inl "unreachable")) default_path
              example_bad_config) as (H1 & H2 & H3); [vm_compute; reflexivity|].
  split; [|split].
  - apply H1. left. vm_compute. reflexivity.
  - apply H2; [reflexivity|]. right. exists {[ "model" := PStr "gpt-x" ]}.
    split; vm_compute; reflexivity.
  - apply H3; [reflexivity|]. left. vm_compute. reflexivity.
Defined.

Lemma deepseek_both_returns_pair_witness :
  result (chat_deepseek (completes (completion (Some "ok") None)) (PStr "hi")
            (PStr "sys") (PStr "both") (PBool false) PNone PNone ∅)
  = Return (RetBoth (Some "ok") (Some "")).
Proof.
  destruct (deepseek_both_returns_pair (completes (completion (Some "ok") None))
              (PStr "hi") (PStr "sys") (PBool false) PNone PNone ∅
              [EvRead default_path] example_deepseek_cfg
              (completion (Some "ok") None)
              {| message := {| message_content := Some "ok";
                               message_reasoning_content := None |} |} [])
    as (second & Hres & Habsent & _);
    [reflexivity | vm_compute; reflexivity | reflexivity | reflexivity |].
  rewrite Hres, (Habsent eq_refl). reflexivity.
Defined.

Lemma kwargs_override_request_fields_witness :
  (∃ client api_params,
     requests (trace (chat_openai (completes (completion (Some "ok") None)) (PStr "hi")
                        (PStr "sys") (PStr "text") (PBool false)
                        {[ "model" := PStr "gpt-y" ]}))
     = [(client, api_params)] ∧ api_params !! "model" = Some (PStr "gpt-y")) ∧
  (∃ client api_params,
     requests (trace (chat_deepseek (completes (completion (Some "ok") None))
                        (PStr "hi") (PStr "sys") (PStr "text") (PBool false)
                        PNone PNone {[ "temperature" := PInt 0 ]}))
     = [(client, api_params)] ∧ api_params !! "temperature" = Some (PInt 0)) ∧
  (∃ client api_params,
     requests (trace (call_chat_openai (completes (completion (Some "ok") None))
                        {| args := [PStr "hi"]; keywords := [("model", PStr "gpt-y")] |}))
     = [(client, api_params)] ∧ api_params !! "model" = Some (PStr "gpt-y")).
Proof.
  destruct (kwargs_override_request_fields (completes (completion (Some "ok") None))
              (PStr "hi") (PStr "sys") (PStr "text") (PBool false) PNone PNone
              {[ "model" := PStr "gpt-y" ]} "model" (PStr "gpt-y"))
    as (H1 & _ & H3); [vm_compute; reflexivity|].
  destruct (kwargs_override_request_fields (completes (completion (Some "ok") None))
              (PStr "hi") (PStr "sys") (PStr "text") (PBool false) PNone PNone
              {[ "temperature" := PInt 0 ]} "temperature" (PInt 0))
    as (_ & H2 & _); [vm_compute; reflexivity|].
  split; [|split].
  - apply (H1 [EvRead default_path] example_openai_cfg). vm_compute. reflexivity.
  - apply (H2 [EvRead default_path] example_deepseek_cfg). vm_compute. reflexivity.
  - apply (H3 [EvRead default_path] example_openai_cfg). vm_compute. reflexivity.
Defined.

Lemma deepseek_unnamed_mode_falls_through_witness :
  (∀ msg, result (chat_deepseek (streams thought_hello) (PStr "hi") (PStr "sys")
                    (PStr "xml") (PBool true) PNone PNone ∅)
          ≠ Raise (ValueError msg)) ∧
  result (chat_deepseek (streams thought_hello) (PStr "hi") (PStr "sys") (PStr "xml")
            (PBool true) PNone PNone ∅)
  = Return (RetText (Some "hello")).
Proof.
  destruct (deepseek_unnamed_mode_falls_through (streams thought_hello) (PStr "hi")
              (PStr "sys") (PBool true) PNone PNone ∅ "xml")
    as (H1 & H2 & _); [discriminate | discriminate |].
  split; [exact H1|].
  apply (H2 [EvRead default_path] example_deepseek_cfg thought_hello);
    [reflexivity | vm_compute; reflexivity | reflexivity | repeat constructor].
Defined.

(** * Further properties of the module *)

(** ** Traces of console output *)


Lemma prints_only_nil : prints_only [].
Proof. done. Qed.















(** ** More on the configuration *)

Section ConfigMore.

Variable w : world.

Implicit Types (path service : string) (doc d cfg kwargs : gmap string pyval).
Implicit Types (content system return_type stream model messages : pyval).

(** A wrapper whose configuration does not load stops there. *)
Lemma chat_openai_config_error content system return_type stream kwargs
  (t : list event) (e : exn) :
  load_config w default_path "openai" = (t, Raise e) →
  chat_openai w content system return_type stream kwargs = (t, Raise e).
Proof. intros H. unfold chat_openai. by rewrite H. Qed.

Lemma chat_deepseek_config_error content system return_type stream model messages
  kwargs (t : list event) (e : exn) :
  load_config w default_path "deepseek" = (t, Raise e) →
  chat_deepseek w content system return_type stream model messages kwargs
  = (t, Raise e).
Proof. intros H. unfold chat_deepseek. by rewrite H. Qed.

Lemma load_config_section path service doc d (a : pyval) :
  files w !! path = Some doc →
  doc !! service = Some (PDict d) →
  d !! "api_key" = Some a →
  load_config w path service
  = ([EvRead path],
     Return {[ "api_key" := a;
               "base_url" := default PNone (d !! "base_url");
               "model" := default PNone (d !! "model") ]}).
Proof.
  intros Hfile Hsec Hkey.
  unfold load_config, toml_load, getitem, bind, emit, ret, raise. simpl.
  rewrite Hfile. simpl. rewrite Hsec. simpl. unfold getitem. by rewrite Hkey.
Qed.

(** X1. When the file has the section as a table with an access key,
    [load_config] returns a dictionary with exactly the keys "api_key",
    "base_url" and "model": the access key of the section, and the
    section's base URL and model, each [None] when the section has none.
    Every other key of the section is dropped.  The only effect is one read
    of the file. *)
Theorem load_config_returns_three_keys path service doc d (a : pyval) :
  files w !! path = Some doc →
  doc !! service = Some (PDict d) →
  d !! "api_key" = Some a →
  ∃ cfg,
    load_config w path service = ([EvRead path], Return cfg) ∧
    cfg !! "api_key" = Some a ∧
    cfg !! "base_url" = Some (default PNone (d !! "base_url")) ∧
    cfg !! "model" = Some (default PNone (d !! "model")) ∧
    dom cfg = ({[ "api_key"; "base_url"; "model" ]} : gset string).
Proof.
  intros Hfile Hsec Hkey. eexists.
  split; [by apply (load_config_section path service doc d a)|].
  split; [done|]. split; [done|]. split; [done|].
  rewrite !dom_insert_L. set_solver.
Qed.

(** X2. When the configuration file does not exist, [load_config] raises
    [FileNotFoundError], and both wrappers fail with it after the attempt
    to read the file, without sending a request. *)
Theorem missing_file_fails_before_request path :
  files w !! path = None →
  (∀ service,
     load_config w path service = ([EvRead path], Raise (FileNotFoundError path))) ∧
  (path = default_path →
   (∀ content system return_type stream kwargs,
      chat_openai w content system return_type stream kwargs
      = ([EvRead path], Raise (FileNotFoundError path))) ∧
   (∀ content system return_type stream model messages kwargs,
      chat_deepseek w content system return_type stream model messages kwargs
      = ([EvRead path], Raise (FileNotFoundError path)))).
Proof.
  intros Hfile.
  assert (∀ service, load_config w path service
                     = ([EvRead path], Raise (FileNotFoundError path))) as Hload.
  { intros service. unfold load_config, toml_load, bind, emit, raise. simpl.
    by rewrite Hfile. }
  split; [done|]. intros ->. split; intros.
  - by apply chat_openai_config_error.
  - by apply chat_deepseek_config_error.
Qed.

(** X3. When the name of the service is bound in the file to a value that
    is not a table (a string, a number, a list, ...), subscripting it with
    "api_key" raises [TypeError], not [KeyError]; both wrappers fail with it
    without sending a request. *)
Theorem non_table_section_raises_TypeError path service doc (v : pyval) :
  files w !! path = Some doc →
  doc !! service = Some v →
  (∀ d, v ≠ PDict d) →
  load_config w path service = ([EvRead path], Raise TypeError) ∧
  (path = default_path → service = "openai" →
   ∀ content system return_type stream kwargs,
     chat_openai w content system return_type stream kwargs
     = ([EvRead path], Raise TypeError)) ∧
  (path = default_path → service = "deepseek" →
   ∀ content system return_type stream model messages kwargs,
     chat_deepseek w content system return_type stream model messages kwargs
     = ([EvRead path], Raise TypeError)).
Proof.
  intros Hfile Hsec Hv.
  assert (load_config w path service = ([EvRead path], Raise TypeError)) as Hload.
  { unfold load_config, toml_load, getitem, bind, emit, ret, raise. simpl.
    rewrite Hfile. simpl. rewrite Hsec. simpl.
    destruct v as [| | | | |d]; try done. by destruct (Hv d). }
  split; [done|]. split; intros -> ->; intros.
  - by apply chat_openai_config_error.
  - by apply chat_deepseek_config_error.
Qed.


End ConfigMore.

Lemma load_config_returns_three_keys_witness :
  ∃ cfg,
    load_config (world_of example_config (inl "down")) default_path "openai"
    = ([EvRead default_path], Return cfg) ∧
    cfg !! "api_key" = Some (PStr "k") ∧
    cfg !! "base_url" = Some PNone ∧
    cfg !! "model" = Some (PStr "gpt-x") ∧
    dom cfg = ({[ "api_key"; "base_url"; "model" ]} : gset string).
Proof.
  destruct (load_config_returns_three_keys (world_of example_config (inl "down"))
              default_path "openai" example_config
              {[ "api_key" := PStr "k"; "model" := PStr "gpt-x" ]} (PStr "k"))
    as (cfg & H1 & H2 & H3 & H4 & H5);
    [vm_compute; reflexivity | vm_compute; reflexivity | vm_compute; reflexivity |].
  exists cfg. split; [exact H1|]. split; [exact H2|]. split; [exact H3|].
  split; [exact H4|exact H5].
Defined.

Lemma missing_file_fails_before_request_witness :
  chat_openai {| files := ∅; create := λ _ _, inl "down" |} (PStr "hi") (PStr "sys")
    (PStr "text") (PBool false) ∅
  = ([EvRead default_path], Raise (FileNotFoundError default_path)).
Proof.
  destruct (missing_file_fails_before_request
              {| files := ∅; create := λ _ _, inl "down" |} default_path)
    as [_ H]; [reflexivity|].
  destruct (H eq_refl) as [Ho _]. apply Ho.
Defined.

Lemma non_table_section_raises_TypeError_witness :
  load_config (world_of {[ "openai" := PStr "sk-123" ]} (inl "down")) default_path
    "openai"
  = ([EvRead default_path], Raise TypeError).
Proof.
  destruct (non_table_section_raises_TypeError
              (world_of {[ "openai" := PStr "sk-123" ]} (inl "down")) default_path
              "openai" {[ "openai" := PStr "sk-123" ]} (PStr "sk-123"))
    as [H _]; [vm_compute; reflexivity | vm_compute; reflexivity | discriminate |].
  exact H.
Defined.


(** ** The request and its client *)

Section RequestMore.

Variable w : world.

Implicit Types (doc d cfg kwargs : gmap string pyval).
Implicit Types (content system return_type stream model messages : pyval).



(** X7. The request dictionary has the keys "model", "messages" and
    "stream" and the keys of [kwargs], and no other: nothing else of the
    call (not the output mode, not the prompts as such) is sent. *)
Theorem request_keys_are_three_and_kwargs content system return_type stream model
  messages kwargs :
  (∀ t cfg,
   load_config w default_path "openai" = (t, Return cfg) →
   ∃ client api_params,
     requests (trace (chat_openai w content system return_type stream kwargs))
     = [(client, api_params)] ∧
     dom api_params = {[ "model"; "messages"; "stream" ]} ∪ dom kwargs) ∧
  (∀ t cfg,
   load_config w default_path "deepseek" = (t, Return cfg) →
   ∃ client api_params,
     requests (trace (chat_deepseek w content system return_type stream model
                        messages kwargs))
     = [(client, api_params)] ∧
     dom api_params = {[ "model"; "messages"; "stream" ]} ∪ dom kwargs).
Proof.
  split; intros t cfg Hcfg.
  - rewrite (chat_openai_requests _ _ _ _ _ _ _ _ Hcfg).
    eexists _, _. split; [reflexivity|].
    unfold openai_api_params, make_api_params.
    rewrite dom_union_L, !dom_insert_L.
    apply set_eq. intros k. set_unfold. tauto.
  - rewrite (chat_deepseek_requests _ _ _ _ _ _ _ _ _ _ Hcfg).
    eexists _, _. split; [reflexivity|].
    unfold deepseek_api_params, make_api_params.
    rewrite dom_union_L, !dom_insert_L.
    apply set_eq. intros k. set_unfold. tauto.
Qed.

(** X8. The output mode never reaches the remote end: two calls that
    differ only in [return_type] send the same requests. *)
Theorem request_independent_of_return_type content system stream model messages
  kwargs (return_type1 return_type2 : pyval) :
  requests (trace (chat_openai w content system return_type1 stream kwargs))
  = requests (trace (chat_openai w content system return_type2 stream kwargs)) ∧
  requests (trace (chat_deepseek w content system return_type1 stream model
                     messages kwargs))
  = requests (trace (chat_deepseek w content system return_type2 stream model
                       messages kwargs)).
Proof.
  split.
  - destruct (load_config w default_path "openai") as [t [cfg|e]] eqn:Hcfg.
    + by rewrite !(chat_openai_requests _ _ _ _ _ _ _ _ Hcfg).
    + by rewrite !(chat_openai_config_error _ _ _ _ _ _ _ _ Hcfg).
  - destruct (load_config w default_path "deepseek") as [t [cfg|e]] eqn:Hcfg.
    + by rewrite !(chat_deepseek_requests _ _ _ _ _ _ _ _ _ _ Hcfg).
    + by rewrite !(chat_deepseek_config_error _ _ _ _ _ _ _ _ _ _ Hcfg).
Qed.

End RequestMore.



Lemma request_keys_are_three_and_kwargs_witness :
  ∃ client api_params,
    requests (trace (chat_openai (completes (completion (Some "ok") None)) (PStr "hi")
                       (PStr "sys") (PStr "text") (PBool false)
                       {[ "temperature" := PInt 0 ]}))
    = [(client, api_params)] ∧
    dom api_params
    = {[ "model"; "messages"; "stream" ]} ∪ dom ({[ "temperature" := PInt 0 ]}
                                                   : gmap string pyval).
Proof.
  destruct (request_keys_are_three_and_kwargs
              (completes (completion (Some "ok") None)) (PStr "hi") (PStr "sys")
              (PStr "text") (PBool false) PNone PNone {[ "temperature" := PInt 0 ]})
    as [H _].
  apply (H [EvRead default_path] example_openai_cfg). vm_compute. reflexivity.
Defined.

(** ** Outcomes of a call *)

Section Outcomes.

Variable w : world.

Implicit Types (cfg kwargs : gmap string pyval) (mode : string).
Implicit Types (content system return_type stream model messages : pyval).

(** X9. A non-streaming text-mode call of [chat_openai] whose reply has a
    first choice returns the content of that choice's message, which may be
    [None]; it reads the file, sends the request, and prints nothing. *)
Theorem openai_text_returns_message_content content system stream kwargs t cfg
  (r : ChatCompletion) (c : Choice) (rest : list Choice) :
  truthy stream = false →
  load_config w default_path "openai" = (t, Return cfg) →
  create w (openai_client cfg) (openai_api_params cfg content system stream kwargs)
  = inr (Completion r) →
  choices r = c :: rest →
  chat_openai w content system (PStr "text") stream kwargs
  = ([EvRead default_path;
      EvRequest (openai_client cfg)
        (openai_api_params cfg content system stream kwargs)],
     Return (RetText (message_content (message c)))).
Proof.
  intros Hs Hcfg Hans Hc.
  rewrite (chat_openai_answered _ _ _ _ _ _ _ _ _ Hcfg Hans).
  unfold openai_reshape. rewrite Hs. simpl eq_str. cbv iota.
  unfold response_message. by rewrite Hc, bind_ret.
Qed.

(** X10. A non-streaming raw-mode call returns the reply of the remote end
    as it is, without looking into it: a reply with no choice at all is
    returned like any other, and nothing is printed. *)
Theorem json_returns_reply_untouched content system stream model messages kwargs
  (response : remote_obj) :
  truthy stream = false →
  (∀ t cfg,
   load_config w default_path "openai" = (t, Return cfg) →
   create w (openai_client cfg) (openai_api_params cfg content system stream kwargs)
   = inr response →
   chat_openai w content system (PStr "json") stream kwargs
   = ([EvRead default_path;
       EvRequest (openai_client cfg)
         (openai_api_params cfg content system stream kwargs)],
      Return (RetResponse response))) ∧
  (∀ t cfg,
   load_config w default_path "deepseek" = (t, Return cfg) →
   create w (deepseek_client cfg)
     (deepseek_api_params cfg content system stream model messages kwargs)
   = inr response →
   chat_deepseek w content system (PStr "json") stream model messages kwargs
   = ([EvRead default_path;
       EvRequest (deepseek_client cfg)
         (deepseek_api_params cfg content system stream model messages kwargs)],
      Return (RetResponse response))).
Proof.
  intros Hs. split; intros t cfg Hcfg Hans.
  - rewrite (chat_openai_answered _ _ _ _ _ _ _ _ _ Hcfg Hans).
    unfold openai_reshape. by rewrite Hs.
  - rewrite (chat_deepseek_answered _ _ _ _ _ _ _ _ _ _ _ Hcfg Hans).
    unfold deepseek_reshape. by rewrite Hs.
Qed.

(** X11. A failure of the remote call is passed on unchanged, whatever the
    output mode and the streaming flag: the wrapper raises the very error,
    after one read of the file and one request, without a second attempt
    and without any console output. *)
Theorem transport_error_propagates content system return_type stream model
  messages kwargs (detail : string) :
  (∀ t cfg,
   load_config w default_path "openai" = (t, Return cfg) →
   create w (openai_client cfg) (openai_api_params cfg content system stream kwargs)
   = inl detail →
   chat_openai w content system return_type stream kwargs
   = ([EvRead default_path;
       EvRequest (openai_client cfg)
         (openai_api_params cfg content system stream kwargs)],
      Raise (APIError detail))) ∧
  (∀ t cfg,
   load_config w default_path "deepseek" = (t, Return cfg) →
   create w (deepseek_client cfg)
     (deepseek_api_params cfg content system stream model messages kwargs)
   = inl detail →
   chat_deepseek w content system return_type stream model messages kwargs
   = ([EvRead default_path;
       EvRequest (deepseek_client cfg)
         (deepseek_api_params cfg content system stream model messages kwargs)],
      Raise (APIError detail))).
Proof.
  split; intros t cfg Hcfg Hans.
  - rewrite (chat_openai_unfold _ _ _ _ _ _ _ _ Hcfg).
    rewrite bind_Return. unfold completions_create.
    rewrite bind_assoc, bind_emit. by rewrite Hans.
  - rewrite (chat_deepseek_unfold _ _ _ _ _ _ _ _ _ _ Hcfg).
    rewrite bind_Return. unfold completions_create.
    rewrite bind_assoc, bind_emit. by rewrite Hans.
Qed.

(** X12. A non-streaming call whose reply has no choice fails with
    [IndexError] in every mode that reads the message: "text" for
    [chat_openai], every mode but "json" for [chat_deepseek].  The request
    has been sent by then. *)
Theorem reply_without_choices_raises_IndexError content system stream model
  messages kwargs mode (r : ChatCompletion) :
  truthy stream = false →
  choices r = [] →
  mode ≠ "json" →
  (∀ t cfg,
   load_config w default_path "openai" = (t, Return cfg) →
   create w (openai_client cfg) (openai_api_params cfg content system stream kwargs)
   = inr (Completion r) →
   chat_openai w content system (PStr "text") stream kwargs
   = ([EvRead default_path;
       EvRequest (openai_client cfg)
         (openai_api_params cfg content system stream kwargs)],
      Raise IndexError)) ∧
  (∀ t cfg,
   load_config w default_path "deepseek" = (t, Return cfg) →
   create w (deepseek_client cfg)
     (deepseek_api_params cfg content system stream model messages kwargs)
   = inr (Completion r) →
   chat_deepseek w content system (PStr mode) stream model messages kwargs
   = ([EvRead default_path;
       EvRequest (deepseek_client cfg)
         (deepseek_api_params cfg content system stream model messages kwargs)],
      Raise IndexError)).
Proof.
  intros Hs Hc Hj. apply String.eqb_neq in Hj.
  split; intros t cfg Hcfg Hans.
  - rewrite (chat_openai_answered _ _ _ _ _ _ _ _ _ Hcfg Hans).
    unfold openai_reshape. rewrite Hs. simpl eq_str. cbv iota.
    unfold response_message. by rewrite Hc.
  - rewrite (chat_deepseek_answered _ _ _ _ _ _ _ _ _ _ _ Hcfg Hans).
    unfold deepseek_reshape. rewrite Hs. simpl eq_str. rewrite Hj.
    unfold response_message. rewrite Hc. by destruct (String.eqb mode "both").
Qed.




End Outcomes.

(** ** Shapes, modes and the console *)

Lemma openai_reshape_silent (return_type stream : pyval) (response : remote_obj) :
  truthy stream = false → trace (openai_reshape return_type stream response) = [].
Proof.
  intros Hs. unfold openai_reshape. rewrite Hs.
  destruct (eq_str return_type "json"); [done|].
  destruct (eq_str return_type "text"); [|done].
  destruct response as [r|]; [|done]. simpl. by destruct (choices r).
Qed.

Lemma deepseek_reshape_silent (return_type stream : pyval) (response : remote_obj) :
  truthy stream = false → trace (deepseek_reshape return_type stream response) = [].
Proof.
  intros Hs. unfold deepseek_reshape. rewrite Hs.
  destruct (eq_str return_type "json"); [done|].
  destruct (eq_str return_type "both");
    (destruct response as [r|]; [|done]); simpl; by destruct (choices r).
Qed.

Lemma openai_reshape_shape (return_type stream : pyval) (response : remote_obj)
  (v : retval) :
  result (openai_reshape return_type stream response) = Return v →
  openai_shape return_type stream = Some (shape_of v) ∧
  (truthy stream = true → v ≠ RetText None).
Proof.
  unfold openai_reshape, openai_shape.
  destruct (truthy stream), (eq_str return_type "json"),
    (eq_str return_type "text"); try done; intros H.
  - apply result_bind_Return in H as (cs & _ & H).
    apply result_bind_Return in H as (l & _ & H). by injection H as <-.
  - apply result_bind_Return in H as (cs & _ & H).
    apply result_bind_Return in H as (l & _ & H). by injection H as <-.
  - apply result_bind_Return in H as (cs & _ & H).
    apply result_bind_Return in H as (s & _ & H).
    apply result_bind_Return in H as (? & _ & H). by injection H as <-.
  - by injection H as <-.
  - by injection H as <-.
  - apply result_bind_Return in H as (m & _ & H). by injection H as <-.
Qed.

Lemma deepseek_reshape_shape (return_type stream : pyval) (response : remote_obj)
  (v : retval) :
  result (deepseek_reshape return_type stream response) = Return v →
  deepseek_shape return_type stream = shape_of v ∧
  (truthy stream = true → v ≠ RetText None ∧ ∀ c r, v = RetBoth c r → c ≠ None ∧ r ≠ None).
Proof.
  unfold deepseek_reshape, deepseek_shape.
  destruct (truthy stream), (eq_str return_type "json"); try done; intros H.
  - apply result_bind_Return in H as (cs & _ & H).
    apply result_bind_Return in H as (l & _ & H). by injection H as <-.
  - apply result_bind_Return in H as (cs & _ & H).
    apply result_bind_Return in H as (acc & _ & H).
    apply result_bind_Return in H as (? & _ & H).
    destruct (eq_str return_type "both"); injection H as <-;
      (split; [done|]); intros _; (split; [done|]); by intros c r [= <- <-].
  - by injection H as <-.
  - destruct (eq_str return_type "both");
      apply result_bind_Return in H as (m & _ & H); by injection H as <-.
Qed.

Lemma deepseek_reshape_text_of_both (mode : string) (stream : pyval)
  (response : remote_obj) :
  mode ≠ "json" → mode ≠ "both" →
  trace (deepseek_reshape (PStr mode) stream response)
  = trace (deepseek_reshape (PStr "both") stream response) ∧
  result (deepseek_reshape (PStr mode) stream response)
  = outcome_map primary_only (result (deepseek_reshape (PStr "both") stream response)).
Proof.
  intros Hj Hb. apply String.eqb_neq in Hj, Hb.
  unfold deepseek_reshape. simpl eq_str. rewrite Hj, Hb. cbv iota.
  destruct (truthy stream).
  - destruct (iterate response) as [ti [cs|e]]; [|done].
    rewrite !bind_Return.
    destruct (deepseek_text_loop cs "" "") as [tl [acc|e]]; [|done].
    by rewrite !bind_Return, !bind_emit.
  - destruct (response_message response) as [tm [m|e]]; [|done].
    by rewrite !bind_Return.
Qed.

Lemma omap_content_of_filter (cs : list ChatCompletionChunk) :
  omap content_of (List.filter has_content cs) = omap content_of cs.
Proof.
  induction cs as [|chunk cs IH]; [done|].
  cbn [List.filter]. unfold has_content at 1.
  destruct (content_of chunk) as [s|] eqn:Hc.
  - cbn [omap list_omap]. by rewrite Hc, IH.
  - cbn [omap list_omap]. by rewrite Hc.
Qed.

Section Shapes.

Variable w : world.

Implicit Types (cfg kwargs : gmap string pyval) (mode : string).
Implicit Types (content system return_type stream model messages : pyval).

(** X14. A non-streaming call never writes to the console, whatever its
    arguments and however it ends. *)
Theorem non_streaming_prints_nothing content system return_type stream model
  messages kwargs :
  truthy stream = false →
  console (trace (chat_openai w content system return_type stream kwargs)) = [] ∧
  console (trace (chat_deepseek w content system return_type stream model messages
                    kwargs)) = [].
Proof.
  intros Hs. split.
  - destruct (load_config w default_path "openai") as [t [cfg|e]] eqn:Hcfg.
    + rewrite (chat_openai_unfold _ _ _ _ _ _ _ _ Hcfg).
      rewrite bind_Return. unfold completions_create.
      rewrite bind_assoc, bind_emit.
      destruct (create w _ _) as [detail|o]; [done|].
      rewrite bind_ret. simpl. by rewrite openai_reshape_silent.
    + rewrite (chat_openai_config_error _ _ _ _ _ _ _ _ Hcfg).
      pose proof (load_config_trace w default_path "openai") as Ht.
      rewrite Hcfg in Ht. simpl in *. by subst t.
  - destruct (load_config w default_path "deepseek") as [t [cfg|e]] eqn:Hcfg.
    + rewrite (chat_deepseek_unfold _ _ _ _ _ _ _ _ _ _ Hcfg).
      rewrite bind_Return. unfold completions_create.
      rewrite bind_assoc, bind_emit.
      destruct (create w _ _) as [detail|o]; [done|].
      rewrite bind_ret. simpl. by rewrite deepseek_reshape_silent.
    + rewrite (chat_deepseek_config_error _ _ _ _ _ _ _ _ _ _ Hcfg).
      pose proof (load_config_trace w default_path "deepseek") as Ht.
      rewrite Hcfg in Ht. simpl in *. by subst t.
Qed.

(** X15. The output mode and the streaming flag fix the type of what a
    call returns, whenever it returns: a list of chunks for streaming
    "json", the reply object for non-streaming "json", a pair for "both"
    ([chat_deepseek] only), a string or [None] otherwise.  A streaming call
    never returns [None], nor a pair with a [None] in it; [chat_openai]
    returns nothing at all for a mode other than "json" and "text". *)
Theorem return_shape_fixed_by_mode_and_stream content system return_type stream
  model messages kwargs (v : retval) :
  (result (chat_openai w content system return_type stream kwargs) = Return v →
   openai_shape return_type stream = Some (shape_of v) ∧
   (truthy stream = true → v ≠ RetText None)) ∧
  (result (chat_deepseek w content system return_type stream model messages kwargs)
   = Return v →
   deepseek_shape return_type stream = shape_of v ∧
   (truthy stream = true →
    v ≠ RetText None ∧ ∀ c r, v = RetBoth c r → c ≠ None ∧ r ≠ None)).
Proof.
  split; intros H.
  - destruct (load_config w default_path "openai") as [t [cfg|e]] eqn:Hcfg.
    + rewrite (chat_openai_unfold _ _ _ _ _ _ _ _ Hcfg) in H.
      apply result_bind_Return in H as (? & _ & H).
      apply result_bind_Return in H as (o & _ & H).
      by apply openai_reshape_shape in H.
    + by rewrite (chat_openai_config_error _ _ _ _ _ _ _ _ Hcfg) in H.
  - destruct (load_config w default_path "deepseek") as [t [cfg|e]] eqn:Hcfg.
    + rewrite (chat_deepseek_unfold _ _ _ _ _ _ _ _ _ _ Hcfg) in H.
      apply result_bind_Return in H as (? & _ & H).
      apply result_bind_Return in H as (o & _ & H).
      by apply deepseek_reshape_shape in H.
    + by rewrite (chat_deepseek_config_error _ _ _ _ _ _ _ _ _ _ Hcfg) in H.
Qed.

(** X16. For [chat_deepseek], a mode other than "json" and "both" (so
    "text") is the mode "both" with the second component thrown away: the
    two calls have the same trace, reasoning echoes included, fail alike,
    and where "both" returns a pair the other returns its first
    component. *)
Theorem deepseek_text_is_both_without_reasoning content system stream model
  messages kwargs mode :
  mode ≠ "json" → mode ≠ "both" →
  trace (chat_deepseek w content system (PStr mode) stream model messages kwargs)
  = trace (chat_deepseek w content system (PStr "both") stream model messages kwargs) ∧
  result (chat_deepseek w content system (PStr mode) stream model messages kwargs)
  = outcome_map primary_only
      (result (chat_deepseek w content system (PStr "both") stream model messages
                 kwargs)).
Proof.
  intros Hj Hb.
  destruct (load_config w default_path "deepseek") as [t [cfg|e]] eqn:Hcfg.
  - rewrite !(chat_deepseek_unfold _ _ _ _ _ _ _ _ _ _ Hcfg).
    rewrite !bind_Return. unfold completions_create.
    rewrite !bind_assoc, !bind_emit.
    destruct (create w _ _) as [detail|o]; [done|].
    rewrite !bind_ret. simpl.
    destruct (deepseek_reshape_text_of_both mode stream o Hj Hb) as [-> ->].
    done.
  - by rewrite !(chat_deepseek_config_error _ _ _ _ _ _ _ _ _ _ Hcfg).
Qed.

(** X17. For [chat_openai], streaming in raw mode and in text mode agree:
    over the same well-formed stream, the text returned in text mode is the
    concatenation of the contents of the chunks returned in raw mode. *)
Theorem openai_text_is_join_of_json_chunks content system stream kwargs t cfg
  (cs : list ChatCompletionChunk) :
  truthy stream = true →
  Forall (λ chunk, well_formed chunk = true) cs →
  load_config w default_path "openai" = (t, Return cfg) →
  create w (openai_client cfg) (openai_api_params cfg content system stream kwargs)
  = inr (Stream cs) →
  ∃ chunk_list,
    result (chat_openai w content system (PStr "json") stream kwargs)
    = Return (RetChunks chunk_list) ∧
    result (chat_openai w content system (PStr "text") stream kwargs)
    = Return (RetText (Some (join (omap content_of chunk_list)))).
Proof.
  intros Hs Hwf Hcfg Hans. exists (List.filter has_content cs).
  rewrite !(chat_openai_answered _ _ _ _ _ _ _ _ _ Hcfg Hans).
  unfold openai_reshape. rewrite Hs. simpl eq_str. cbv iota. simpl iterate.
  rewrite !bind_ret, (openai_json_loop_spec _ _ Hwf), (openai_text_loop_spec _ _ Hwf).
  rewrite !bind_Return, bind_emit, omap_content_of_filter. done.
Qed.

End Shapes.

(** ** A stream that breaks off *)

Lemma openai_text_loop_app (cs1 rest : list ChatCompletionChunk)
  (full_content : string) :
  Forall (λ chunk, well_formed chunk = true) cs1 →
  openai_text_loop (cs1 ++ rest) full_content
  = ((EvPrint <$> omap content_of cs1)
       ++ trace (openai_text_loop rest (full_content +:+ join (omap content_of cs1))),
     result (openai_text_loop rest (full_content +:+ join (omap content_of cs1)))).
Proof.
  intros Hwf. revert full_content.
  induction Hwf as [|chunk cs Hc _ IH]; intros acc.
  - simpl. rewrite append_empty_r. by destruct (openai_text_loop rest acc).
  - simpl. rewrite (chunk_content_well_formed _ Hc), bind_ret.
    destruct (content_of chunk) as [s|]; [|apply IH].
    rewrite bind_emit, IH. simpl. by rewrite append_assoc.
Qed.

Lemma deepseek_text_loop_app (cs1 rest : list ChatCompletionChunk)
  (full_content reasoning_content : string) :
  Forall (λ chunk, well_formed chunk = true) cs1 →
  deepseek_text_loop (cs1 ++ rest) full_content reasoning_content
  = ((EvPrint <$> omap deepseek_echo cs1)
       ++ trace (deepseek_text_loop rest
                   (full_content +:+ join (omap primary_of cs1))
                   (reasoning_content +:+ join (omap reasoning_of cs1))),
     result (deepseek_text_loop rest
               (full_content +:+ join (omap primary_of cs1))
               (reasoning_content +:+ join (omap reasoning_of cs1)))).
Proof.
  intros Hwf. revert full_content reasoning_content.
  induction Hwf as [|chunk cs Hc _ IH]; intros acc racc.
  - simpl. rewrite !append_empty_r. by destruct (deepseek_text_loop rest acc racc).
  - simpl.
    destruct (chunk_choice0_delta _ (well_formed_has_choice _ Hc)) as (c & -> & Hd).
    rewrite bind_ret, Hd.
    unfold deepseek_echo, primary_of, reasoning_of, content_of.
    unfold well_formed in Hc.
    destruct (reasoning_fragment (chunk_delta chunk)) as [r|] eqn:Hr.
    + rewrite bind_emit, IH. simpl. by rewrite append_assoc.
    + destruct (chunk_delta chunk) as [d|]; [|done].
      destruct (str_truthy (delta_content d)) eqn:Ht; [|apply IH].
      destruct (delta_content d) as [s|]; [|done].
      rewrite bind_emit, IH. simpl. by rewrite append_assoc.
Qed.

Section BrokenStream.

Variable w : world.

Implicit Types (cfg kwargs : gmap string pyval) (mode : string).
Implicit Types (content system stream model messages : pyval).
Implicit Types (before after : list ChatCompletionChunk) (bad : ChatCompletionChunk).

(** X18. When a streamed chunk has no choice (an empty [choices] list),
    a text-mode call fails with [IndexError] at that chunk.  What the
    chunks before it carried has been echoed and stays on the console, the
    closing newline is not printed, the chunks after it are not read, and
    the text accumulated so far is lost to the caller. *)
Theorem chunk_without_choices_breaks_stream content system stream model messages
  kwargs mode before bad after :
  truthy stream = true →
  Forall (λ chunk, well_formed chunk = true) before →
  chunk_choices bad = [] →
  mode ≠ "json" →
  (∀ t cfg,
   load_config w default_path "openai" = (t, Return cfg) →
   create w (openai_client cfg) (openai_api_params cfg content system stream kwargs)
   = inr (Stream (before ++ bad :: after)) →
   let m := chat_openai w content system (PStr "text") stream kwargs in
   result m = Raise IndexError ∧
   console (trace m) = EvPrint <$> omap content_of before) ∧
  (∀ t cfg,
   load_config w default_path "deepseek" = (t, Return cfg) →
   create w (deepseek_client cfg)
     (deepseek_api_params cfg content system stream model messages kwargs)
   = inr (Stream (before ++ bad :: after)) →
   let m := chat_deepseek w content system (PStr mode) stream model messages kwargs in
   result m = Raise IndexError ∧
   console (trace m) = EvPrint <$> omap deepseek_echo before).
Proof.
  intros Hs Hwf Hbad Hj. apply String.eqb_neq in Hj.
  split; intros t cfg Hcfg Hans.
  - rewrite (chat_openai_answered _ _ _ _ _ _ _ _ _ Hcfg Hans).
    unfold openai_reshape. rewrite Hs. simpl eq_str. cbv iota. simpl iterate.
    rewrite bind_ret, (openai_text_loop_app _ _ _ Hwf).
    simpl openai_text_loop. unfold chunk_content, chunk_choice0.
    rewrite Hbad. simpl. split; [done|].
    by rewrite app_nil_r, console_prints.
  - rewrite (chat_deepseek_answered _ _ _ _ _ _ _ _ _ _ _ Hcfg Hans).
    unfold deepseek_reshape. rewrite Hs. simpl eq_str. rewrite Hj. simpl iterate.
    rewrite bind_ret, (deepseek_text_loop_app _ _ _ _ Hwf).
    simpl deepseek_text_loop. unfold chunk_choice0.
    rewrite Hbad. simpl. split; [done|].
    by rewrite app_nil_r, console_prints.
Qed.

End BrokenStream.

(** ** More on binding the arguments *)

Section Binding.

Implicit Types (names : list string) (actuals : list pyval).
Implicit Types (kws : list (string * pyval)) (slots kwargs : gmap string pyval).

Lemma bind_positional_raises names actuals slots (e : exn) :
  result (bind_positional names actuals slots) = Raise e → e = TypeError.
Proof.
  revert names slots. induction actuals as [|a actuals IH]; intros names slots.
  - by destruct names.
  - destruct names as [|n names]; [by intros [= <-]|]. apply IH.
Qed.

Lemma bind_positional_too_many names actuals slots :
  length names < length actuals →
  bind_positional names actuals slots = ([], Raise TypeError).
Proof.
  revert names slots. induction actuals as [|a actuals IH]; intros names slots Hlen.
  - simpl in Hlen. lia.
  - destruct names as [|n names]; [done|]. simpl in *. apply IH. lia.
Qed.

Lemma bind_positional_lookup names actuals slots slots' :
  NoDup names →
  (∀ k, k ∈ names → slots !! k = None) →
  result (bind_positional names actuals slots) = Return slots' →
  ∀ k v, slots' !! k = Some v ↔
         slots !! k = Some v ∨ ∃ i, names !! i = Some k ∧ actuals !! i = Some v.
Proof.
  revert names slots.
  induction actuals as [|a actuals IH]; intros names slots Hnd Hfree Hrun k v.
  - assert (slots' = slots) as -> by (destruct names; by injection Hrun).
    split; [by left|]. intros [H|(i & _ & H)]; [done|]. by destruct i.
  - destruct names as [|n names]; [done|]. simpl in Hrun.
    apply NoDup_cons in Hnd as [Hn Hnd].
    rewrite (IH names (<[n:=a]> slots) Hnd); [|  |done].
    + rewrite lookup_insert_Some. split.
      * intros [[[-> ->]|[Hne H]]|(i & H1 & H2)].
        -- right. by exists 0.
        -- by left.
        -- right. by exists (S i).
      * intros [H|(i & H1 & H2)].
        -- left. right. split; [|done]. intros ->.
           rewrite Hfree in H; [done|]. by left.
        -- destruct i as [|i]; simpl in *.
           ++ injection H1 as ->. injection H2 as ->. left. by left.
           ++ right. eauto.
    + intros k' Hk'. rewrite lookup_insert_ne; [apply Hfree; by right|].
      by intros ->.
Qed.

Lemma bind_keywords_trace names kws slots kwargs :
  trace (bind_keywords names kws slots kwargs) = [].
Proof.
  revert slots kwargs. induction kws as [|[k v] kws IH]; intros slots kwargs; [done|].
  simpl. destruct (bool_decide (k ∈ names)).
  - destruct (slots !! k); [done|apply IH].
  - destruct (kwargs !! k); [done|apply IH].
Qed.

Lemma bind_keywords_raises names kws slots kwargs (e : exn) :
  result (bind_keywords names kws slots kwargs) = Raise e → e = TypeError.
Proof.
  revert slots kwargs. induction kws as [|[k v] kws IH]; intros slots kwargs; [done|].
  simpl. destruct (bool_decide (k ∈ names)).
  - destruct (slots !! k); [by intros [= <-]|apply IH].
  - destruct (kwargs !! k); [by intros [= <-]|apply IH].
Qed.

(** Where the keywords of a call that binds have gone. *)
Lemma bind_keywords_lookup names kws slots kwargs slots' kwargs' :
  result (bind_keywords names kws slots kwargs) = Return (slots', kwargs') →
  ∀ k v,
    (slots' !! k = Some v ↔ slots !! k = Some v ∨ ((k, v) ∈ kws ∧ k ∈ names)) ∧
    (kwargs' !! k = Some v ↔ kwargs !! k = Some v ∨ ((k, v) ∈ kws ∧ k ∉ names)).
Proof.
  revert slots kwargs.
  induction kws as [|[k0 v0] kws IH]; intros slots kwargs Hrun k v.
  - injection Hrun as <- <-. split; (split; [by left|]).
    + intros [H|[H _]]; [done|]. by apply elem_of_nil in H.
    + intros [H|[H _]]; [done|]. by apply elem_of_nil in H.
  - simpl in Hrun. destruct (bool_decide (k0 ∈ names)) eqn:Hk0.
    + apply bool_decide_eq_true in Hk0.
      destruct (slots !! k0) eqn:Hfree; [done|].
      destruct (IH _ _ Hrun k v) as [Hs Hk]. rewrite Hs, Hk.
      rewrite lookup_insert_Some, !elem_of_cons. split.
      * split.
        -- intros [[[-> ->]|[Hne H]]|[H1 H2]]; [right|by left|right]; split; auto.
        -- intros [H|[[[= -> ->]|H1] H2]].
           ++ left. right. split; [|done]. by intros ->; rewrite Hfree in H.
           ++ left. by left.
           ++ right. by split.
      * split.
        -- intros [H|[H1 H2]]; [by left|right]. split; auto.
        -- intros [H|[[[= -> ->]|H1] H2]]; [by left|done|right; by split].
    + apply bool_decide_eq_false in Hk0.
      destruct (kwargs !! k0) eqn:Hfree; [done|].
      destruct (IH _ _ Hrun k v) as [Hs Hk]. rewrite Hs, Hk.
      rewrite lookup_insert_Some, !elem_of_cons. split.
      * split.
        -- intros [H|[H1 H2]]; [by left|right]. split; auto.
        -- intros [H|[[[= -> ->]|H1] H2]]; [by left|done|right; by split].
      * split.
        -- intros [[[-> ->]|[Hne H]]|[H1 H2]]; [right|by left|right]; split; auto.
        -- intros [H|[[[= -> ->]|H1] H2]].
           ++ left. right. split; [|done]. by intros ->; rewrite Hfree in H.
           ++ left. by left.
           ++ right. by split.
Qed.

(** A keyword for a parameter that already has a value is refused. *)
Lemma bind_keywords_duplicate names kws slots kwargs (k : string) (u v : pyval) :
  slots !! k = Some u → (k, v) ∈ kws → k ∈ names →
  result (bind_keywords names kws slots kwargs) = Raise TypeError.
Proof.
  revert slots kwargs.
  induction kws as [|[k0 v0] kws IH]; intros slots kwargs Hs Hin Hk.
  - by apply elem_of_nil in Hin.
  - simpl. apply elem_of_cons in Hin as [[= <- <-]|Hin].
    + rewrite bool_decide_eq_true_2; [|done]. by rewrite Hs.
    + destruct (bool_decide (k0 ∈ names)).
      * destruct (slots !! k0) eqn:Hk0; [done|]. apply IH; [|done..].
        rewrite lookup_insert_ne; [done|]. intros ->. by rewrite Hk0 in Hs.
      * destruct (kwargs !! k0); [done|]. by apply IH.
Qed.

Lemma bind_args_trace names (c : call) : trace (bind_args names c) = [].
Proof.
  unfold bind_args, bind.
  pose proof (bind_positional_trace names (args c) ∅) as Hp.
  destruct (bind_positional names (args c) ∅) as [t [s|e]]; simpl in *; [|done].
  by rewrite Hp, bind_keywords_trace.
Qed.

End Binding.

Lemma bind_args_lookup (names : list string) (c : call)
  (slots kwargs : gmap string pyval) :
  NoDup names →
  result (bind_args names c) = Return (slots, kwargs) →
  ∀ k v,
    (slots !! k = Some v ↔
       (∃ i, names !! i = Some k ∧ args c !! i = Some v) ∨
       ((k, v) ∈ keywords c ∧ k ∈ names)) ∧
    (kwargs !! k = Some v ↔ (k, v) ∈ keywords c ∧ k ∉ names).
Proof.
  intros Hnd Hrun k v. unfold bind_args in Hrun.
  apply result_bind_Return in Hrun as (slots1 & Hpos & Hkw).
  pose proof (bind_positional_lookup _ _ _ _ Hnd (λ k _, lookup_empty k) Hpos k v)
    as Hp.
  destruct (bind_keywords_lookup _ _ _ _ _ _ Hkw k v) as [Hs Hk].
  assert (∀ u, (∅ : gmap string pyval) !! k = Some u → False) as Hempty.
  { intros u. by rewrite lookup_empty. }
  split.
  - rewrite Hs, Hp. split.
    + intros [[H|H]|H]; [by apply Hempty in H|by left|by right].
    + intros [H|H]; [left; by right|by right].
  - rewrite Hk. split.
    + intros [H|H]; [by apply Hempty in H|done].
    + intros H. by right.
Qed.

Lemma openai_params_NoDup : NoDup openai_params.
Proof. apply (bool_decide_unpack _). by vm_compute. Qed.

Lemma deepseek_params_NoDup : NoDup deepseek_params.
Proof. apply (bool_decide_unpack _). by vm_compute. Qed.

Lemma bind_args_raises (names : list string) (c : call) (e : exn) :
  result (bind_args names c) = Raise e → e = TypeError.
Proof.
  unfold bind_args, bind.
  destruct (bind_positional names (args c) ∅) as [t [s|e']] eqn:Hp; simpl.
  - apply bind_keywords_raises.
  - intros [= <-]. apply (bind_positional_raises names (args c) ∅). by rewrite Hp.
Qed.

Lemma bind_args_twice (names : list string) (c : call) (i : nat) (k : string)
  (a v : pyval) :
  NoDup names →
  names !! i = Some k → args c !! i = Some a → (k, v) ∈ keywords c →
  bind_args names c = ([], Raise TypeError).
Proof.
  intros Hnd Hn Ha Hin.
  rewrite (M_eta (bind_args names c)), bind_args_trace. f_equal.
  unfold bind_args, bind.
  destruct (bind_positional names (args c) ∅) as [t [slots1|e]] eqn:Hp; simpl.
  - assert (slots1 !! k = Some a) as Hs.
    { apply (bind_positional_lookup names (args c) ∅ slots1 Hnd
               (λ k _, lookup_empty k)); [by rewrite Hp|]. right. eauto. }
    apply (bind_keywords_duplicate _ _ _ _ k a v); [done..|].
    by apply list_elem_of_lookup_2 in Hn.
  - f_equal. apply (bind_positional_raises names (args c) ∅). by rewrite Hp.
Qed.

Section Calls.

Variable w : world.

Implicit Types (c : call) (slots kwargs cfg : gmap string pyval).

Lemma call_chat_openai_bound c slots kwargs :
  result (bind_args openai_params c) = Return (slots, kwargs) →
  call_chat_openai w c
  = chat_openai w
      (param slots "content" (PStr ""))
      (param slots "system" (PStr default_openai_system))
      (param slots "return_type" (PStr "text"))
      (param slots "stream" (PBool false))
      kwargs.
Proof.
  intros Hb. destruct (bind_args_Return _ _ _ _ Hb) as [Heq _].
  unfold call_chat_openai. rewrite Heq, bind_Return. simpl.
  by destruct (chat_openai _ _ _ _ _ _).
Qed.

(** X19. How a call binds, for both wrappers: a parameter holds the
    positional argument of its position or the keyword argument of its
    name, and nothing else; [kwargs] holds exactly the keywords that name
    no parameter, each with its value.  So "stream", and for
    [chat_deepseek] also "model" and "messages", can never be in
    [kwargs]. *)
Theorem call_binding_round_trip c slots kwargs (names : list string) :
  names = openai_params ∨ names = deepseek_params →
  result (bind_args names c) = Return (slots, kwargs) →
  ∀ k v,
    (slots !! k = Some v ↔
       (∃ i, names !! i = Some k ∧ args c !! i = Some v) ∨
       ((k, v) ∈ keywords c ∧ k ∈ names)) ∧
    (kwargs !! k = Some v ↔ (k, v) ∈ keywords c ∧ k ∉ names).
Proof.
  intros Hnames. apply bind_args_lookup.
  destruct Hnames as [-> | ->];
    [apply openai_params_NoDup|apply deepseek_params_NoDup].
Qed.

(** X20. A call that cannot be bound fails with [TypeError] before the
    wrapper does anything, the configuration file is not even read: more
    positional arguments than parameters (four for [chat_openai], six for
    [chat_deepseek]), or a keyword for a parameter that a positional
    argument has already filled.  Binding fails in no other way than with
    [TypeError]. *)
Theorem unbindable_call_raises_TypeError c :
  ((4 < length (args c) ∨
    ∃ i k a v, openai_params !! i = Some k ∧ args c !! i = Some a ∧
               (k, v) ∈ keywords c) →
   call_chat_openai w c = ([], Raise TypeError)) ∧
  ((6 < length (args c) ∨
    ∃ i k a v, deepseek_params !! i = Some k ∧ args c !! i = Some a ∧
               (k, v) ∈ keywords c) →
   call_chat_deepseek w c = ([], Raise TypeError)) ∧
  (∀ names e, result (bind_args names c) = Raise e → e = TypeError).
Proof.
  split; [|split].
  - intros H.
    assert (bind_args openai_params c = ([], Raise TypeError)) as Hb.
    { destruct H as [Hlen|(i & k & a & v & Hn & Ha & Hin)].
      - unfold bind_args. by rewrite bind_positional_too_many.
      - by apply (bind_args_twice _ _ i k a v openai_params_NoDup). }
    unfold call_chat_openai. by rewrite Hb.
  - intros H.
    assert (bind_args deepseek_params c = ([], Raise TypeError)) as Hb.
    { destruct H as [Hlen|(i & k & a & v & Hn & Ha & Hin)].
      - unfold bind_args. by rewrite bind_positional_too_many.
      - by apply (bind_args_twice _ _ i k a v deepseek_params_NoDup). }
    unfold call_chat_deepseek. by rewrite Hb.
  - intros names e. apply bind_args_raises.
Qed.

(** X21. Unless a history is supplied, the messages of the request are the
    pair: the system prompt under the role "system", then the content under
    the role "user", each the argument of the call or else the default (the
    wrapper's own system prompt, the empty content).  [chat_openai] has no
    history parameter and always builds the pair, which only a keyword
    [messages] in [kwargs] can replace. *)
Theorem call_sends_system_user_pair c slots kwargs :
  (result (bind_args openai_params c) = Return (slots, kwargs) →
   kwargs !! "messages" = None →
   ∀ t cfg, load_config w default_path "openai" = (t, Return cfg) →
   ∃ client api_params,
     requests (trace (call_chat_openai w c)) = [(client, api_params)] ∧
     api_params !! "messages"
     = Some (PList [ PDict {[ "role" := PStr "system";
                              "content" := param slots "system"
                                             (PStr default_openai_system) ]};
                     PDict {[ "role" := PStr "user";
                              "content" := param slots "content" (PStr "") ]} ])) ∧
  (result (bind_args deepseek_params c) = Return (slots, kwargs) →
   param slots "messages" PNone = PNone →
   ∀ t cfg, load_config w default_path "deepseek" = (t, Return cfg) →
   ∃ client api_params,
     requests (trace (call_chat_deepseek w c)) = [(client, api_params)] ∧
     api_params !! "messages"
     = Some (PList [ PDict {[ "role" := PStr "system";
                              "content" := param slots "system"
                                             (PStr default_deepseek_system) ]};
                     PDict {[ "role" := PStr "user";
                              "content" := param slots "content" (PStr "") ]} ])).
Proof.
  split.
  - intros Hb Hkw t cfg Hcfg.
    rewrite (call_chat_openai_bound _ _ _ Hb).
    rewrite (chat_openai_requests _ _ _ _ _ _ _ _ Hcfg).
    eexists _, _. split; [reflexivity|].
    unfold openai_api_params, make_api_params.
    by rewrite lookup_union_r.
  - intros Hb Hm t cfg Hcfg.
    rewrite (call_chat_deepseek_bound _ _ _ _ Hb).
    rewrite (chat_deepseek_requests _ _ _ _ _ _ _ _ _ _ Hcfg).
    eexists _, _. split; [reflexivity|].
    destruct (bind_args_Return _ _ _ _ Hb) as [_ Hinv].
    unfold deepseek_api_params, make_api_params. rewrite Hm.
    rewrite lookup_union_r; [done|]. apply Hinv. set_solver.
Qed.

(** X22. The "stream" field of the request is always the [stream] argument
    of the call ([False] when it is left out): no keyword can make the
    request disagree with the branch the wrapper takes on [if stream:]. *)
Theorem call_stream_flag_reaches_request c slots kwargs :
  (result (bind_args openai_params c) = Return (slots, kwargs) →
   ∀ t cfg, load_config w default_path "openai" = (t, Return cfg) →
   ∃ client api_params,
     requests (trace (call_chat_openai w c)) = [(client, api_params)] ∧
     api_params !! "stream" = Some (param slots "stream" (PBool false))) ∧
  (result (bind_args deepseek_params c) = Return (slots, kwargs) →
   ∀ t cfg, load_config w default_path "deepseek" = (t, Return cfg) →
   ∃ client api_params,
     requests (trace (call_chat_deepseek w c)) = [(client, api_params)] ∧
     api_params !! "stream" = Some (param slots "stream" (PBool false))).
Proof.
  split.
  - intros Hb t cfg Hcfg.
    rewrite (call_chat_openai_bound _ _ _ Hb).
    rewrite (chat_openai_requests _ _ _ _ _ _ _ _ Hcfg).
    eexists _, _. split; [reflexivity|].
    destruct (bind_args_Return _ _ _ _ Hb) as [_ Hinv].
    unfold openai_api_params, make_api_params.
    rewrite lookup_union_r; [done|]. apply Hinv. set_solver.
  - intros Hb t cfg Hcfg.
    rewrite (call_chat_deepseek_bound _ _ _ _ Hb).
    rewrite (chat_deepseek_requests _ _ _ _ _ _ _ _ _ _ Hcfg).
    eexists _, _. split; [reflexivity|].
    destruct (bind_args_Return _ _ _ _ Hb) as [_ Hinv].
    unfold deepseek_api_params, make_api_params.
    rewrite lookup_union_r; [done|]. apply Hinv. set_solver.
Qed.

Lemma base_params_lookup (model messages stream : pyval) (k : string) (v : pyval) :
  ({[ "model" := model; "messages" := messages; "stream" := stream ]}
     : gmap string pyval) !! k = Some v →
  k ∈ ["model"; "messages"; "stream"].
Proof.
  rewrite !lookup_insert_Some, lookup_singleton_Some.
  intros [[<- _]|[_ [[<- _]|[_ [<- _]]]]]; rewrite !elem_of_cons; auto.
Qed.

(** X23. Keywords that name no parameter pass through to the request
    unchanged, and the request holds nothing else besides "model",
    "messages" and "stream": every entry of the request is one of these
    three or a keyword of the call, with the value the call gave it. *)
Theorem call_keywords_pass_through c slots kwargs :
  (result (bind_args openai_params c) = Return (slots, kwargs) →
   ∀ t cfg, load_config w default_path "openai" = (t, Return cfg) →
   ∃ client api_params,
     requests (trace (call_chat_openai w c)) = [(client, api_params)] ∧
     (∀ k v, (k, v) ∈ keywords c → k ∉ openai_params → api_params !! k = Some v) ∧
     (∀ k v, api_params !! k = Some v →
        k ∈ ["model"; "messages"; "stream"] ∨ (k, v) ∈ keywords c)) ∧
  (result (bind_args deepseek_params c) = Return (slots, kwargs) →
   ∀ t cfg, load_config w default_path "deepseek" = (t, Return cfg) →
   ∃ client api_params,
     requests (trace (call_chat_deepseek w c)) = [(client, api_params)] ∧
     (∀ k v, (k, v) ∈ keywords c → k ∉ deepseek_params → api_params !! k = Some v) ∧
     (∀ k v, api_params !! k = Some v →
        k ∈ ["model"; "messages"; "stream"] ∨ (k, v) ∈ keywords c)).
Proof.
  split.
  - intros Hb t cfg Hcfg.
    rewrite (call_chat_openai_bound _ _ _ Hb).
    rewrite (chat_openai_requests _ _ _ _ _ _ _ _ Hcfg).
    eexists _, _. split; [reflexivity|].
    pose proof (bind_args_lookup _ _ _ _ openai_params_NoDup Hb) as Hl.
    unfold openai_api_params, make_api_params. split.
    + intros k v Hin Hk. apply lookup_union_Some_l. by apply Hl.
    + intros k v H. apply lookup_union_Some_raw in H as [H|[_ H]].
      * right. by apply Hl in H as [H _].
      * left. by apply base_params_lookup in H.
  - intros Hb t cfg Hcfg.
    rewrite (call_chat_deepseek_bound _ _ _ _ Hb).
    rewrite (chat_deepseek_requests _ _ _ _ _ _ _ _ _ _ Hcfg).
    eexists _, _. split; [reflexivity|].
    pose proof (bind_args_lookup _ _ _ _ deepseek_params_NoDup Hb) as Hl.
    unfold deepseek_api_params, make_api_params. split.
    + intros k v Hin Hk. apply lookup_union_Some_l. by apply Hl.
    + intros k v H. apply lookup_union_Some_raw in H as [H|[_ H]].
      * right. by apply Hl in H as [H _].
      * left. by apply base_params_lookup in H.
Qed.

End Calls.

(** ** Concrete runs for the further properties *)

Lemma openai_text_returns_message_content_witness :
  chat_openai (completes (completion (Some "hello") None)) (PStr "hi") (PStr "sys")
    (PStr "text") (PBool false) ∅
  = ([EvRead default_path;
      EvRequest (openai_client example_openai_cfg)
        (openai_api_params example_openai_cfg (PStr "hi") (PStr "sys") (PBool false) ∅)],
     Return (RetText (Some "hello"))).
Proof.
  apply (openai_text_returns_message_content
           (completes (completion (Some "hello") None)) (PStr "hi") (PStr "sys")
           (PBool false) ∅ [EvRead default_path] example_openai_cfg
           (completion (Some "hello") None)
           {| message := {| message_content := Some "hello";
                            message_reasoning_content := None |} |} []);
    [reflexivity | vm_compute; reflexivity | reflexivity | reflexivity].
Defined.

Lemma json_returns_reply_untouched_witness :
  chat_deepseek (completes {| choices := [] |}) (PStr "hi") (PStr "sys") (PStr "json")
    (PBool false) PNone PNone ∅
  = ([EvRead default_path;
      EvRequest (deepseek_client example_deepseek_cfg)
        (deepseek_api_params example_deepseek_cfg (PStr "hi") (PStr "sys")
           (PBool false) PNone PNone ∅)],
     Return (RetResponse (Completion {| choices := [] |}))).
Proof.
  destruct (json_returns_reply_untouched (completes {| choices := [] |}) (PStr "hi")
              (PStr "sys") (PBool false) PNone PNone ∅
              (Completion {| choices := [] |})) as [_ H]; [reflexivity|].
  apply (H [EvRead default_path] example_deepseek_cfg);
    [vm_compute; reflexivity | reflexivity].
Defined.

Lemma transport_error_propagates_witness :
  chat_openai (world_of example_config (inl "rate limit")) (PStr "hi") (PStr "sys")
    (PStr "text") (PBool true) ∅
  = ([EvRead default_path;
      EvRequest (openai_client example_openai_cfg)
        (openai_api_params example_openai_cfg (PStr "hi") (PStr "sys") (PBool true) ∅)],
     Raise (APIError "rate limit")).
Proof.
  destruct (transport_error_propagates (world_of example_config (inl "rate limit"))
              (PStr "hi") (PStr "sys") (PStr "text") (PBool true) PNone PNone ∅
              "rate limit") as [H _].
  apply (H [EvRead default_path] example_openai_cfg);
    [vm_compute; reflexivity | reflexivity].
Defined.

Lemma reply_without_choices_raises_IndexError_witness :
  chat_deepseek (completes {| choices := [] |}) (PStr "hi") (PStr "sys") (PStr "both")
    (PBool false) PNone PNone ∅
  = ([EvRead default_path;
      EvRequest (deepseek_client example_deepseek_cfg)
        (deepseek_api_params example_deepseek_cfg (PStr "hi") (PStr "sys")
           (PBool false) PNone PNone ∅)],
     Raise IndexError).
Proof.
  destruct (reply_without_choices_raises_IndexError (completes {| choices := [] |})
              (PStr "hi") (PStr "sys") (PBool false) PNone PNone ∅ "both"
              {| choices := [] |}) as [_ H]; [reflexivity | reflexivity | discriminate |].
  apply (H [EvRead default_path] example_deepseek_cfg);
    [vm_compute; reflexivity | reflexivity].
Defined.

Lemma non_streaming_prints_nothing_witness :
  console (trace (chat_openai (completes (completion (Some "hello") None)) (PStr "hi")
                    (PStr "sys") (PStr "text") (PBool false) ∅)) = [] ∧
  console (trace (chat_deepseek (completes (completion (Some "hello") None))
                    (PStr "hi") (PStr "sys") (PStr "text") (PBool false) PNone PNone
                    ∅)) = [].
Proof.
  apply (non_streaming_prints_nothing (completes (completion (Some "hello") None))
           (PStr "hi") (PStr "sys") (PStr "text") (PBool false) PNone PNone ∅).
  reflexivity.
Defined.

Lemma return_shape_fixed_by_mode_and_stream_witness :
  deepseek_shape (PStr "both") (PBool true) = shape_of (RetBoth (Some "hello") (Some "hm")).
Proof.
  destruct (return_shape_fixed_by_mode_and_stream (streams thought_hello) (PStr "hi")
              (PStr "sys") (PStr "both") (PBool true) PNone PNone ∅
              (RetBoth (Some "hello") (Some "hm"))) as [_ H].
  apply H. vm_compute. reflexivity.
Defined.

Lemma deepseek_text_is_both_without_reasoning_witness :
  trace (chat_deepseek (streams thought_hello) (PStr "hi") (PStr "sys") (PStr "text")
           (PBool true) PNone PNone ∅)
  = trace (chat_deepseek (streams thought_hello) (PStr "hi") (PStr "sys") (PStr "both")
             (PBool true) PNone PNone ∅) ∧
  result (chat_deepseek (streams thought_hello) (PStr "hi") (PStr "sys") (PStr "text")
            (PBool true) PNone PNone ∅)
  = outcome_map primary_only
      (result (chat_deepseek (streams thought_hello) (PStr "hi") (PStr "sys")
                 (PStr "both") (PBool true) PNone PNone ∅)).
Proof.
  apply (deepseek_text_is_both_without_reasoning (streams thought_hello) (PStr "hi")
           (PStr "sys") (PBool true) PNone PNone ∅ "text"); discriminate.
Defined.

Lemma openai_text_is_join_of_json_chunks_witness :
  ∃ chunk_list,
    result (chat_openai (streams hello) (PStr "hi") (PStr "sys") (PStr "json")
              (PBool true) ∅)
    = Return (RetChunks chunk_list) ∧
    result (chat_openai (streams hello) (PStr "hi") (PStr "sys") (PStr "text")
              (PBool true) ∅)
    = Return (RetText (Some (join (omap content_of chunk_list)))).
Proof.
  apply (openai_text_is_join_of_json_chunks (streams hello) (PStr "hi") (PStr "sys")
           (PBool true) ∅ [EvRead default_path] example_openai_cfg hello);
    [reflexivity | repeat constructor | vm_compute; reflexivity | reflexivity].
Defined.

Lemma chunk_without_choices_breaks_stream_witness :
  result (chat_openai (streams (hello ++ {| chunk_choices := [] |} :: [text_chunk "!"]))
            (PStr "hi") (PStr "sys") (PStr "text") (PBool true) ∅)
  = Raise IndexError ∧
  console (trace (chat_openai
                    (streams (hello ++ {| chunk_choices := [] |} :: [text_chunk "!"]))
                    (PStr "hi") (PStr "sys") (PStr "text") (PBool true) ∅))
  = [EvPrint "he"; EvPrint "llo"].
Proof.
  destruct (chunk_without_choices_breaks_stream
              (streams (hello ++ {| chunk_choices := [] |} :: [text_chunk "!"]))
              (PStr "hi") (PStr "sys") (PBool true) PNone PNone ∅ "text"
              hello {| chunk_choices := [] |} [text_chunk "!"]) as [H _];
    [reflexivity | repeat constructor | reflexivity | discriminate |].
  apply (H [EvRead default_path] example_openai_cfg);
    [vm_compute; reflexivity | reflexivity].
Defined.

Lemma call_binding_round_trip_witness :
  (({[ "content" := PStr "hi"; "stream" := PBool true ]} : gmap string pyval)
     !! "stream" = Some (PBool true) ↔
     (∃ i, openai_params !! i = Some "stream" ∧ [PStr "hi"] !! i = Some (PBool true)) ∨
     (("stream", PBool true) ∈ [("stream", PBool true); ("temperature", PInt 0)] ∧
      "stream" ∈ openai_params)) ∧
  (({[ "temperature" := PInt 0 ]} : gmap string pyval) !! "stream"
   = Some (PBool true) ↔
     ("stream", PBool true) ∈ [("stream", PBool true); ("temperature", PInt 0)] ∧
     "stream" ∉ openai_params).
Proof.
  apply (call_binding_round_trip
           {| args := [PStr "hi"];
              keywords := [("stream", PBool true); ("temperature", PInt 0)] |}
           {[ "content" := PStr "hi"; "stream" := PBool true ]}
           {[ "temperature" := PInt 0 ]} openai_params);
    [by left | vm_compute; reflexivity].
Defined.

Lemma unbindable_call_raises_TypeError_witness :
  call_chat_openai (completes (completion (Some "ok") None))
    {| args := [PStr "hi"]; keywords := [("content", PStr "again")] |}
  = ([], Raise TypeError) ∧
  call_chat_deepseek (completes (completion (Some "ok") None))
    {| args := [PStr "a"; PStr "b"; PStr "c"; PBool false; PNone; PNone; PInt 7];
       keywords := [] |}
  = ([], Raise TypeError).
Proof.
  split.
  - destruct (unbindable_call_raises_TypeError (completes (completion (Some "ok") None))
                {| args := [PStr "hi"]; keywords := [("content", PStr "again")] |})
      as (H & _ & _).
    apply H. right. exists 0, "content", (PStr "hi"), (PStr "again").
    split; [reflexivity|]. split; [reflexivity|]. constructor.
  - destruct (unbindable_call_raises_TypeError (completes (completion (Some "ok") None))
                {| args := [PStr "a"; PStr "b"; PStr "c"; PBool false; PNone; PNone;
                            PInt 7];
                   keywords := [] |}) as (_ & H & _).
    apply H. left. simpl. lia.
Defined.

Lemma call_sends_system_user_pair_witness :
  ∃ client api_params,
    requests (trace (call_chat_openai (completes (completion (Some "ok") None))
                       {| args := [PStr "hi"]; keywords := [] |}))
    = [(client, api_params)] ∧
    api_params !! "messages"
    = Some (PList [ PDict {[ "role" := PStr "system";
                             "content" := PStr default_openai_system ]};
                    PDict {[ "role" := PStr "user"; "content" := PStr "hi" ]} ]).
Proof.
  destruct (call_sends_system_user_pair (completes (completion (Some "ok") None))
              {| args := [PStr "hi"]; keywords := [] |}
              {[ "content" := PStr "hi" ]} ∅) as [H _].
  apply (H ltac:(vm_compute; reflexivity) ltac:(vm_compute; reflexivity)
           [EvRead default_path] example_openai_cfg).
  vm_compute. reflexivity.
Defined.

Lemma call_stream_flag_reaches_request_witness :
  ∃ client api_params,
    requests (trace (call_chat_deepseek (streams hello)
                       {| args := [PStr "hi"]; keywords := [("stream", PBool true)] |}))
    = [(client, api_params)] ∧
    api_params !! "stream" = Some (PBool true).
Proof.
  destruct (call_stream_flag_reaches_request (streams hello)
              {| args := [PStr "hi"]; keywords := [("stream", PBool true)] |}
              {[ "content" := PStr "hi"; "stream" := PBool true ]} ∅) as [_ H].
  apply (H ltac:(vm_compute; reflexivity) [EvRead default_path] example_deepseek_cfg).
  vm_compute. reflexivity.
Defined.

Lemma call_keywords_pass_through_witness :
  ∃ client api_params,
    requests (trace (call_chat_openai (completes (completion (Some "ok") None))
                       {| args := [PStr "hi"];
                          keywords := [("temperature", PInt 0)] |}))
    = [(client, api_params)] ∧
    (∀ k v, (k, v) ∈ [("temperature", PInt 0)] → k ∉ openai_params →
       api_params !! k = Some v) ∧
    (∀ k v, api_params !! k = Some v →
       k ∈ ["model"; "messages"; "stream"] ∨ (k, v) ∈ [("temperature", PInt 0)]).
Proof.
  destruct (call_keywords_pass_through (completes (completion (Some "ok") None))
              {| args := [PStr "hi"]; keywords := [("temperature", PInt 0)] |}
              {[ "content" := PStr "hi" ]} {[ "temperature" := PInt 0 ]}) as [H _].
  apply (H ltac:(vm_compute; reflexivity) [EvRead default_path] example_openai_cfg).
  vm_compute. reflexivity.
Defined.

(** ** Chunks that the dual-channel loop treats specially *)

Section SpecialChunks.

Variable w : world.

Implicit Types (cfg kwargs : gmap string pyval) (mode : string).
Implicit Types (content system stream model messages : pyval).
Implicit Types (before after : list ChatCompletionChunk).

(** X24. In the streaming loop of [chat_deepseek], a chunk that carries
    both a non-empty reasoning fragment and content counts as a reasoning
    chunk only: its reasoning fragment is accumulated and echoed with the
    marker, its content is neither returned nor echoed.  The primary text
    is the one of the stream without that chunk. *)
Theorem content_beside_reasoning_is_dropped content system stream model messages
  kwargs t cfg before after (chunk : ChatCompletionChunk) (d : ChoiceDelta)
  (s r : string) :
  truthy stream = true →
  Forall (λ chunk, well_formed chunk = true) before →
  Forall (λ chunk, well_formed chunk = true) after →
  chunk_delta chunk = Some d →
  delta_content d = Some s →
  delta_reasoning_content d = Some (Some r) →
  r ≠ "" →
  load_config w default_path "deepseek" = (t, Return cfg) →
  create w (deepseek_client cfg)
    (deepseek_api_params cfg content system stream model messages kwargs)
  = inr (Stream (before ++ chunk :: after)) →
  let m := chat_deepseek w content system (PStr "both") stream model messages kwargs in
  result m
  = Return (RetBoth (Some (join (omap primary_of (before ++ after))))
                    (Some (join (omap reasoning_of before ++ r :: omap reasoning_of after)))) ∧
  console (trace m)
  = EvPrint <$> (omap deepseek_echo before
                   ++ (reasoning_marker +:+ r) :: omap deepseek_echo after
                   ++ [newline]).
Proof.
  intros Hs Hb Ha Hd Hc Hr Hne Hcfg Hans m. subst m.
  assert (reasoning_of chunk = Some r) as Hreas.
  { unfold reasoning_of, reasoning_fragment. rewrite Hd, Hr.
    apply String.eqb_neq in Hne. by rewrite Hne. }
  assert (primary_of chunk = None) as Hprim.
  { unfold primary_of. by rewrite Hreas. }
  assert (deepseek_echo chunk = Some (reasoning_marker +:+ r)) as Hecho.
  { unfold deepseek_echo. by rewrite Hreas. }
  assert (Forall (λ chunk, well_formed chunk = true) (before ++ chunk :: after))
    as Hwf.
  { apply Forall_app. split; [done|]. apply Forall_cons. split; [|done].
    unfold well_formed. by rewrite Hd. }
  rewrite (chat_deepseek_answered _ _ _ _ _ _ _ _ _ _ _ Hcfg Hans).
  unfold deepseek_reshape. rewrite Hs. simpl eq_str. cbv iota. simpl iterate.
  rewrite bind_ret, (deepseek_text_loop_spec _ _ _ Hwf).
  rewrite bind_Return, bind_emit.
  rewrite !omap_app. cbn [omap list_omap]. rewrite Hprim, Hreas, Hecho.
  split; [reflexivity|].
  cbn [trace result fst snd console].
  rewrite console_app, console_prints. cbn [console].
  rewrite !fmap_app. cbn [fmap list_fmap]. rewrite fmap_app.
  rewrite <- app_assoc. reflexivity.
Qed.

(** X25. A streamed chunk whose first choice has no delta ([None]) is
    tolerated by [chat_deepseek] in raw mode, which leaves it out of the
    list and goes on, but not in its other modes, where the call fails with
    [AttributeError] at that chunk, after echoing what came before. *)
Theorem chunk_without_delta_skipped_or_fatal content system stream model messages
  kwargs t cfg before after (bad : ChatCompletionChunk) (rest : list ChunkChoice)
  mode :
  truthy stream = true →
  Forall (λ chunk, well_formed chunk = true) before →
  Forall (λ chunk, well_formed chunk = true) after →
  chunk_choices bad = {| delta := None |} :: rest →
  mode ≠ "json" →
  load_config w default_path "deepseek" = (t, Return cfg) →
  create w (deepseek_client cfg)
    (deepseek_api_params cfg content system stream model messages kwargs)
  = inr (Stream (before ++ bad :: after)) →
  result (chat_deepseek w content system (PStr "json") stream model messages kwargs)
  = Return (RetChunks (before ++ after)) ∧
  result (chat_deepseek w content system (PStr mode) stream model messages kwargs)
  = Raise AttributeError ∧
  console (trace (chat_deepseek w content system (PStr mode) stream model messages
                    kwargs))
  = EvPrint <$> omap deepseek_echo before.
Proof.
  intros Hs Hb Ha Hbad Hj Hcfg Hans. apply String.eqb_neq in Hj.
  assert (Forall (λ chunk, has_choice chunk = true) (before ++ bad :: after)) as Hch.
  { apply Forall_app. split; [|apply Forall_cons; split].
    - eapply Forall_impl; [exact Hb|]. apply well_formed_has_choice.
    - unfold has_choice. by rewrite Hbad.
    - eapply Forall_impl; [exact Ha|]. apply well_formed_has_choice. }
  assert (∀ l, Forall (λ chunk, well_formed chunk = true) l →
               List.filter well_formed l = l) as Hfilter.
  { intros l Hl. induction Hl as [|x l Hx _ IH]; [done|].
    simpl. by rewrite Hx, IH. }
  rewrite !(chat_deepseek_answered _ _ _ _ _ _ _ _ _ _ _ Hcfg Hans).
  unfold deepseek_reshape. rewrite Hs. simpl eq_str. rewrite Hj. cbv iota.
  simpl iterate. rewrite !bind_ret. split; [|split].
  - rewrite (deepseek_json_loop_spec _ _ Hch), bind_Return.
    rewrite List.filter_app. cbn [List.filter].
    assert (well_formed bad = false) as ->.
    { unfold well_formed, chunk_delta. by rewrite Hbad. }
    by rewrite !Hfilter.
  - rewrite (deepseek_text_loop_app _ _ _ _ Hb).
    simpl deepseek_text_loop. unfold chunk_choice0. rewrite Hbad. done.
  - rewrite (deepseek_text_loop_app _ _ _ _ Hb).
    simpl deepseek_text_loop. unfold chunk_choice0. rewrite Hbad. simpl.
    by rewrite app_nil_r, console_prints.
Qed.

End SpecialChunks.

Lemma content_beside_reasoning_is_dropped_witness :
  result (chat_deepseek
            (streams ([text_chunk "he"] ++ mixed_chunk "hm" "LOST" :: [text_chunk "llo"]))
            (PStr "hi") (PStr "sys") (PStr "both") (PBool true) PNone PNone ∅)
  = Return (RetBoth (Some "hello") (Some "hm")) ∧
  console (trace (chat_deepseek
                    (streams ([text_chunk "he"] ++ mixed_chunk "hm" "LOST"
                                :: [text_chunk "llo"]))
                    (PStr "hi") (PStr "sys") (PStr "both") (PBool true) PNone PNone ∅))
  = [EvPrint "he"; EvPrint (reasoning_marker +:+ "hm"); EvPrint "llo"; EvPrint newline].
Proof.
  apply (content_beside_reasoning_is_dropped
           (streams ([text_chunk "he"] ++ mixed_chunk "hm" "LOST" :: [text_chunk "llo"]))
           (PStr "hi") (PStr "sys") (PBool true) PNone PNone ∅
           [EvRead default_path] example_deepseek_cfg
           [text_chunk "he"] [text_chunk "llo"] (mixed_chunk "hm" "LOST")
           {| delta_content := Some "LOST";
              delta_reasoning_content := Some (Some "hm") |} "LOST" "hm");
    [reflexivity | repeat constructor | repeat constructor | reflexivity
    | reflexivity | reflexivity | discriminate | vm_compute; reflexivity
    | reflexivity].
Defined.

Lemma chunk_without_delta_skipped_or_fatal_witness :
  result (chat_deepseek (streams (hello ++ no_delta_chunk :: [text_chunk "!"]))
            (PStr "hi") (PStr "sys") (PStr "json") (PBool true) PNone PNone ∅)
  = Return (RetChunks (hello ++ [text_chunk "!"])) ∧
  result (chat_deepseek (streams (hello ++ no_delta_chunk :: [text_chunk "!"]))
            (PStr "hi") (PStr "sys") (PStr "text") (PBool true) PNone PNone ∅)
  = Raise AttributeError ∧
  console (trace (chat_deepseek (streams (hello ++ no_delta_chunk :: [text_chunk "!"]))
                    (PStr "hi") (PStr "sys") (PStr "text") (PBool true) PNone PNone ∅))
  = [EvPrint "he"; EvPrint "llo"].
Proof.
  apply (chunk_without_delta_skipped_or_fatal
           (streams (hello ++ no_delta_chunk :: [text_chunk "!"]))
           (PStr "hi") (PStr "sys") (PBool true) PNone PNone ∅
           [EvRead default_path] example_deepseek_cfg
           hello [text_chunk "!"] no_delta_chunk [] "text");
    [reflexivity | repeat constructor | repeat constructor | reflexivity
    | discriminate | vm_compute; reflexivity | reflexivity].
Defined.
